(** * gql-to-json-schema-go: the schema translation engine of pkg/main.go
      and the command-line driver of cmd/main.go, embedded in Rocq.

    Go values are modelled as follows.
    - [string] is Rocq's [string] (a sequence of bytes).
    - A slice [[]T] is [option (list T)]: [None] is the nil slice, and
      [range] over a nil slice runs zero times.
    - A pointer [*T] that the code tests against nil is [option T].
    - [map[string]*JSONSchema6] is [option (gmap string JSONSchema6)]:
      [None] is the nil map, [Some ∅] is [make(map...)].
    - [interface{}] is an [option]: [None] is the nil interface.
    - A function returning [(T, error)] returns a pair whose second
      component is [option string] ([None] is the nil error). *)

From Stdlib Require Import Ascii String.
From stdpp Require Import gmap strings list fin_maps.

Set Warnings "-register-all".

Open Scope string_scope.
Open Scope list_scope.

(** ** Input data model (pkg/main.go, lines 51-115) *)

Module TypeRef.
Record t := mk { Name : string }.
End TypeRef.

Module IntrospectionTypeRef.
Inductive t := mk {
  Kind : string;
  Name : option string;
  OfType : option t
}.
End IntrospectionTypeRef.

Module IntrospectionEnum.
Record t := mk {
  Name : string;
  Description : string
}.
End IntrospectionEnum.

Module IntrospectionArg.
Record t := mk {
  Name : string;
  Description : string;
  Type_ : IntrospectionTypeRef.t;
  DefaultValue : option string
}.
End IntrospectionArg.

Module IntrospectionInput.
Record t := mk {
  Name : string;
  Description : string;
  Type_ : IntrospectionTypeRef.t;
  DefaultValue : option string
}.
End IntrospectionInput.

Module IntrospectionField.
Record t := mk {
  Name : string;
  Description : string;
  Args : option (list IntrospectionArg.t);
  Type_ : IntrospectionTypeRef.t
}.
End IntrospectionField.

Module IntrospectionType.
Inductive t := mk {
  Kind : string;
  Name : string;
  Description : string;
  Fields : option (list IntrospectionField.t);
  InputFields : option (list IntrospectionInput.t);
  Interfaces : option (list TypeRef.t);
  EnumValues : option (list IntrospectionEnum.t);
  PossibleTypes : option (list t)
}.
End IntrospectionType.

Module IntrospectionSchema.
Record t := mk {
  QueryType : option TypeRef.t;
  MutationType : option TypeRef.t;
  Types : option (list IntrospectionType.t)
}.
End IntrospectionSchema.

Module IntrospectionQuery.
Record t := mk { Schema : IntrospectionSchema.t }.
End IntrospectionQuery.

(** ** Options (pkg/main.go, lines 8-32) *)

Definition IDTypeMapping := string.

Definition IDTypeString : IDTypeMapping := "string".
Definition IDTypeNumber : IDTypeMapping := "number".
Definition IDTypeBoth : IDTypeMapping := "both".
Definition IDTypeDefaultMode : IDTypeMapping := IDTypeString.

Module Options.
Record t := mk {
  IgnoreInternals : bool;
  NullableArrayItems : bool;
  IDTypeMapping : string
}.
End Options.

Definition DefaultOptions : Options.t :=
  {| Options.IgnoreInternals := true;
     Options.NullableArrayItems := false;
     Options.IDTypeMapping := IDTypeDefaultMode |}.

(** The dynamic values the code stores in the [Type] field, an
    [interface{}]: a string or a slice of strings. *)
Inductive TypeValue :=
  | TypeString (s : string)
  | TypeStrings (l : list string).

(** [range] over a slice that may be nil. *)
Definition range {A} (s : option (list A)) : list A :=
  match s with
  | Some l => l
  | None => []
  end.

(** Go's [s[:2]] on a string of length at least 2. *)
Definition slice_to_2 (s : string) : string := String.substring 0 2 s.

(** pkg/main.go, lines 158-160. *)
Definition isRootType (name : string) : bool :=
  (name =? "Query") || (name =? "Mutation").

(** pkg/main.go, lines 162-169: the first type of that name. *)
Fixpoint findType (types : list IntrospectionType.t) (name : string)
  : option IntrospectionType.t :=
  match types with
  | [] => None
  | t :: rest =>
      if IntrospectionType.Name t =? name then Some t else findType rest name
  end.

(** The test of the loop of filterTypes (line 178). *)
Definition keepType (t : IntrospectionType.t) : bool :=
  (String.length (IntrospectionType.Name t) <? 2)%nat
  || negb (slice_to_2 (IntrospectionType.Name t) =? "__").

(** pkg/main.go, lines 171-183. *)
Definition filterTypes (types : list IntrospectionType.t) (ignoreInternals : bool)
  : list IntrospectionType.t :=
  if negb ignoreInternals then types
  else
    fold_left (fun filtered t => if keepType t then filtered ++ [t] else filtered)
      types [].

(** pkg/main.go, lines 389-391. *)
Definition isRequired (typeRef : IntrospectionTypeRef.t) : bool :=
  IntrospectionTypeRef.Kind typeRef =? "NON_NULL".

(** pkg/main.go, lines 394-403. *)
Definition IsValidIDTypeMapping (mapping : IDTypeMapping) : bool :=
  let validMappings := ["string"; "number"; "both"] in
  (fix loop (l : list string) : bool :=
     match l with
     | [] => false
     | valid :: rest => if mapping =? valid then true else loop rest
     end) validMappings.

(** The double-quote character (byte 34), an escaped quote in the Go literal. *)
Definition dquote : string := String "034"%char EmptyString.

Definition ID_description : string :=
  "The `ID` scalar type represents a unique identifier, often used to refetch an object or as key for a cache. The ID type appears in a JSON response as a String; however, it is not intended to be human-readable. When expected as an input type, any string (such as `"
  +:+ dquote +:+ "4" +:+ dquote +:+
  "`) or integer (such as `4`) input value will be accepted as an ID.".

Definition String_description : string :=
  "The `String` scalar type represents textual data, represented as UTF-8 character sequences. The String type is most often used by GraphQL to represent free-form human-readable text.".

Definition Boolean_description : string :=
  "The `Boolean` scalar type represents `true` or `false`.".

(** ** Output data model and the translation engine *)

Section Engine.

(** The non-nil values [json.Unmarshal] stores into an [interface{}], and
    [json.Unmarshal] itself (package encoding/json): [None] is a parse
    error, [Some None] is the JSON literal null, which leaves the
    interface nil. *)
Context {JSONValue : Type}.
Variable json_Unmarshal : string -> option (option JSONValue).

(** pkg/main.go, lines 34-49. *)
Inductive JSONSchema6 : Type := mkJSONSchema6 {
  Schema : string;
  Type_ : option TypeValue;
  Properties : option (gmap string JSONSchema6);
  Items : option JSONSchema6;
  Ref : string;
  Required : option (list string);
  Definitions : option (gmap string JSONSchema6);
  AnyOf : option (list JSONSchema6);
  OneOf : option (list JSONSchema6);
  Title : string;
  Description : string;
  Default : option JSONValue;
  Enum : option (list string)
}.

(** The zero value [JSONSchema6{}]. *)
Definition empty_node : JSONSchema6 :=
  mkJSONSchema6 "" None None None "" None None None None "" "" None None.

(** Field assignments [schema.F = v]; a composite literal
    [&JSONSchema6{F: v, G: w}] is the zero value with [F] and [G] assigned. *)
Definition set_Schema (v : string) (s : JSONSchema6) : JSONSchema6 :=
  let 'mkJSONSchema6 _ b c d e f g h i j k l m := s in
  mkJSONSchema6 v b c d e f g h i j k l m.
Definition set_Type (v : option TypeValue) (s : JSONSchema6) : JSONSchema6 :=
  let 'mkJSONSchema6 a _ c d e f g h i j k l m := s in
  mkJSONSchema6 a v c d e f g h i j k l m.
Definition set_Properties (v : option (gmap string JSONSchema6)) (s : JSONSchema6)
  : JSONSchema6 :=
  let 'mkJSONSchema6 a b _ d e f g h i j k l m := s in
  mkJSONSchema6 a b v d e f g h i j k l m.
Definition set_Items (v : option JSONSchema6) (s : JSONSchema6) : JSONSchema6 :=
  let 'mkJSONSchema6 a b c _ e f g h i j k l m := s in
  mkJSONSchema6 a b c v e f g h i j k l m.
Definition set_Ref (v : string) (s : JSONSchema6) : JSONSchema6 :=
  let 'mkJSONSchema6 a b c d _ f g h i j k l m := s in
  mkJSONSchema6 a b c d v f g h i j k l m.
Definition set_Required (v : option (list string)) (s : JSONSchema6) : JSONSchema6 :=
  let 'mkJSONSchema6 a b c d e _ g h i j k l m := s in
  mkJSONSchema6 a b c d e v g h i j k l m.
Definition set_Definitions (v : option (gmap string JSONSchema6)) (s : JSONSchema6)
  : JSONSchema6 :=
  let 'mkJSONSchema6 a b c d e f _ h i j k l m := s in
  mkJSONSchema6 a b c d e f v h i j k l m.
Definition set_AnyOf (v : option (list JSONSchema6)) (s : JSONSchema6) : JSONSchema6 :=
  let 'mkJSONSchema6 a b c d e f g _ i j k l m := s in
  mkJSONSchema6 a b c d e f g v i j k l m.
Definition set_OneOf (v : option (list JSONSchema6)) (s : JSONSchema6) : JSONSchema6 :=
  let 'mkJSONSchema6 a b c d e f g h _ j k l m := s in
  mkJSONSchema6 a b c d e f g h v j k l m.
Definition set_Title (v : string) (s : JSONSchema6) : JSONSchema6 :=
  let 'mkJSONSchema6 a b c d e f g h i _ k l m := s in
  mkJSONSchema6 a b c d e f g h i v k l m.
Definition set_Description (v : string) (s : JSONSchema6) : JSONSchema6 :=
  let 'mkJSONSchema6 a b c d e f g h i j _ l m := s in
  mkJSONSchema6 a b c d e f g h i j v l m.
Definition set_Default (v : option JSONValue) (s : JSONSchema6) : JSONSchema6 :=
  let 'mkJSONSchema6 a b c d e f g h i j k _ m := s in
  mkJSONSchema6 a b c d e f g h i j k v m.
Definition set_Enum (v : option (list string)) (s : JSONSchema6) : JSONSchema6 :=
  let 'mkJSONSchema6 a b c d e f g h i j k l _ := s in
  mkJSONSchema6 a b c d e f g h i j k l v.

Notation "s |> f" := (f s) (at level 45, left associativity, only parsing).

(** The string and string-slice values assigned to [Type]. *)
Definition type_string (s : string) : option TypeValue := Some (TypeString s).
Definition type_strings (l : list string) : option TypeValue := Some (TypeStrings l).

(** [schema.Properties[k] = v] on a map that may be nil; the engine only
    ever assigns into maps it has made, so the nil case (a panic in Go) is
    unreachable and left as it is. *)
Definition assign_property (k : string) (v : JSONSchema6)
  (props : option (gmap string JSONSchema6)) : option (gmap string JSONSchema6) :=
  match props with
  | Some m => Some (<[k := v]> m)
  | None => None
  end.

(** [fmt.Sprintf("#/definitions/%s", name)]. *)
Definition definitions_ref (name : string) : string := "#/definitions/" +:+ name.

(** pkg/main.go, lines 356-387. *)
Definition processScalar (name : string) (idMapping : IDTypeMapping) : JSONSchema6 :=
  let schema := empty_node |> set_Title name in
  if name =? "ID" then
    let schema := schema |> set_Description ID_description in
    if idMapping =? IDTypeNumber then schema |> set_Type (type_string "number")
    else if idMapping =? IDTypeBoth then
      schema |> set_Type (type_strings ["string"; "number"])
    else schema |> set_Type (type_string "string")
  else if name =? "String" then
    schema |> set_Type (type_string "string") |> set_Description String_description
  else if (name =? "Int") || (name =? "Float") then
    schema |> set_Type (type_string "number")
  else if name =? "Boolean" then
    schema |> set_Type (type_string "boolean") |> set_Description Boolean_description
  else schema.

(** pkg/main.go, lines 314-354. *)
Fixpoint processTypeRef (typeRef : IntrospectionTypeRef.t) (opts : Options.t)
  : JSONSchema6 :=
  if IntrospectionTypeRef.Kind typeRef =? "NON_NULL" then
    match IntrospectionTypeRef.OfType typeRef with
    | Some ofType => processTypeRef ofType opts
    | None => empty_node
    end
  else if IntrospectionTypeRef.Kind typeRef =? "LIST" then
    match IntrospectionTypeRef.OfType typeRef with
    | Some ofType =>
        let items := processTypeRef ofType opts in
        let schema :=
          empty_node |> set_Type (type_string "array") |> set_Items (Some items) in
        if Options.NullableArrayItems opts && negb (isRequired ofType) then
          schema |> set_Items (Some (empty_node |> set_AnyOf
            (Some [items; empty_node |> set_Type (type_string "null")])))
        else schema
    | None => empty_node |> set_Type (type_string "array")
    end
  else if IntrospectionTypeRef.Kind typeRef =? "SCALAR" then
    match IntrospectionTypeRef.Name typeRef with
    | Some name => processScalar name (Options.IDTypeMapping opts)
    | None => empty_node
    end
  else
    match IntrospectionTypeRef.Name typeRef with
    | Some name => empty_node |> set_Ref (definitions_ref name)
    | None => empty_node
    end.

(** Lines 290-295 and 304-309: attach the parsed default value, if the
    literal is present and parses. *)
Definition attach_default (defaultValue : option string) (schema : JSONSchema6)
  : JSONSchema6 :=
  match defaultValue with
  | Some literal =>
      match json_Unmarshal literal with
      | Some value => schema |> set_Default value
      | None => schema
      end
  | None => schema
  end.

(** pkg/main.go, lines 286-298. *)
Definition processInputValue (input : IntrospectionInput.t) (opts : Options.t)
  : JSONSchema6 :=
  let schema := processTypeRef (IntrospectionInput.Type_ input) opts in
  let schema := schema |> set_Description (IntrospectionInput.Description input) in
  attach_default (IntrospectionInput.DefaultValue input) schema.

(** pkg/main.go, lines 300-312. *)
Definition processArg (arg : IntrospectionArg.t) (opts : Options.t) : JSONSchema6 :=
  let schema := processTypeRef (IntrospectionArg.Type_ arg) opts in
  let schema := schema |> set_Description (IntrospectionArg.Description arg) in
  attach_default (IntrospectionArg.DefaultValue arg) schema.

(** [if len(required) > 0 { schema.Required = required }]. *)
Definition assign_required (required : list string) (schema : JSONSchema6)
  : JSONSchema6 :=
  if (0 <? length required)%nat then schema |> set_Required (Some required)
  else schema.

(** pkg/main.go, lines 251-284. The loop threads the properties of [args]
    and the [required] slice. *)
Definition processField (field : IntrospectionField.t) (opts : Options.t)
  : JSONSchema6 :=
  let schema :=
    empty_node |> set_Type (type_string "object") |> set_Properties (Some ∅)
               |> set_Description (IntrospectionField.Description field) in
  let schema :=
    schema |> set_Properties (assign_property "return"
      (processTypeRef (IntrospectionField.Type_ field) opts) (Properties schema)) in
  let args :=
    empty_node |> set_Type (type_string "object") |> set_Properties (Some ∅) in
  let '(argProps, required) :=
    fold_left
      (fun '(props, required) arg =>
         (assign_property (IntrospectionArg.Name arg) (processArg arg opts) props,
          if isRequired (IntrospectionArg.Type_ arg)
          then required ++ [IntrospectionArg.Name arg] else required))
      (range (IntrospectionField.Args field)) (Properties args, []) in
  let args := args |> set_Properties argProps |> assign_required required in
  schema |> set_Properties (assign_property "arguments" args (Properties schema)).

(** [delete(m, k)]; deleting from a nil map does nothing. *)
Definition delete_property (k : string) (props : option (gmap string JSONSchema6))
  : option (gmap string JSONSchema6) :=
  match props with
  | Some m => Some (delete k m)
  | None => None
  end.

(** pkg/main.go, lines 185-249. *)
Definition processType (t : IntrospectionType.t) (opts : Options.t) : JSONSchema6 :=
  let schema :=
    empty_node |> set_Type (type_string "object") |> set_Properties (Some ∅)
               |> set_Description (IntrospectionType.Description t) in
  let kind := IntrospectionType.Kind t in
  if (kind =? "OBJECT") || (kind =? "INTERFACE") then
    let '(props, required) :=
      fold_left
        (fun '(props, required) field =>
           (assign_property (IntrospectionField.Name field)
              (processField field opts) props,
            if isRequired (IntrospectionField.Type_ field)
            then required ++ [IntrospectionField.Name field] else required))
        (range (IntrospectionType.Fields t)) (Properties schema, []) in
    schema |> set_Properties props |> assign_required required
  else if kind =? "INPUT_OBJECT" then
    let '(props, required) :=
      fold_left
        (fun '(props, required) field =>
           (assign_property (IntrospectionInput.Name field)
              (processInputValue field opts) props,
            if isRequired (IntrospectionInput.Type_ field)
            then required ++ [IntrospectionInput.Name field] else required))
        (range (IntrospectionType.InputFields t)) (Properties schema, []) in
    schema |> set_Properties props |> assign_required required
  else if kind =? "ENUM" then
    let schema := schema |> set_Type (type_string "string") in
    let anyOf :=
      fold_left
        (fun anyOf enumValue =>
           anyOf ++ [empty_node
             |> set_Enum (Some [IntrospectionEnum.Name enumValue])
             |> set_Title (IntrospectionEnum.Description enumValue)
             |> set_Description (IntrospectionEnum.Description enumValue)])
        (range (IntrospectionType.EnumValues t)) [] in
    schema |> set_AnyOf (Some anyOf)
  else if kind =? "UNION" then
    let schema :=
      schema |> set_Properties (delete_property "type" (Properties schema)) in
    let oneOf :=
      fold_left
        (fun oneOf possibleType =>
           oneOf ++ [empty_node
             |> set_Ref (definitions_ref (IntrospectionType.Name possibleType))])
        (range (IntrospectionType.PossibleTypes t)) [] in
    schema |> set_OneOf (Some oneOf)
  else schema.

(** Lines 130-135 and 137-142: a declared root that is found among the
    types becomes the property [key]. *)
Definition assign_root (key : string) (root : option TypeRef.t)
  (types : option (list IntrospectionType.t)) (opts : Options.t)
  (schema : JSONSchema6) : JSONSchema6 :=
  match root, types with
  | Some rootRef, Some types =>
      match findType types (TypeRef.Name rootRef) with
      | Some rootType =>
          schema |> set_Properties
            (assign_property key (processType rootType opts) (Properties schema))
      | None => schema
      end
  | _, _ => schema
  end.

(** Lines 144-151: the definitions pass. *)
Definition assign_definitions (types : option (list IntrospectionType.t))
  (opts : Options.t) (schema : JSONSchema6) : JSONSchema6 :=
  match types with
  | Some types =>
      let filteredTypes := filterTypes types (Options.IgnoreInternals opts) in
      schema |> set_Definitions
        (fold_left
           (fun defs t =>
              if negb (isRootType (IntrospectionType.Name t))
              then assign_property (IntrospectionType.Name t) (processType t opts) defs
              else defs)
           filteredTypes (Definitions schema))
  | None => schema
  end.

(** pkg/main.go, lines 118-154. A nil [opts] is [None]. *)
Definition FromIntrospectionQuery (introspection : IntrospectionQuery.t)
  (opts : option Options.t) : JSONSchema6 * option string :=
  let opts :=
    match opts with
    | Some o => o
    | None => DefaultOptions
    end in
  let s := IntrospectionQuery.Schema introspection in
  let schema :=
    empty_node |> set_Schema "http://json-schema.org/draft-06/schema#"
               |> set_Properties (Some ∅) |> set_Definitions (Some ∅) in
  let schema :=
    assign_root "Query" (IntrospectionSchema.QueryType s)
      (IntrospectionSchema.Types s) opts schema in
  let schema :=
    assign_root "Mutation" (IntrospectionSchema.MutationType s)
      (IntrospectionSchema.Types s) opts schema in
  let schema := assign_definitions (IntrospectionSchema.Types s) opts schema in
  (schema, None).

(** Read a property of a node: [node.properties.<k>]. *)
Definition property (k : string) (s : JSONSchema6) : option JSONSchema6 :=
  Properties s ≫= (.!! k).

(** Follow a path of property names: [node.properties.<k1>.properties.<k2>...]. *)
Definition node_at (path : list string) (s : JSONSchema6) : option JSONSchema6 :=
  fold_left (fun node k => node ≫= property k) path (Some s).

(** The node of one enum value (lines 226-230). *)
Definition enum_entry (enumValue : IntrospectionEnum.t) : JSONSchema6 :=
  empty_node
  |> set_Enum (Some [IntrospectionEnum.Name enumValue])
  |> set_Title (IntrospectionEnum.Description enumValue)
  |> set_Description (IntrospectionEnum.Description enumValue).

(** The node of one possible type of a union (lines 240-242). *)
Definition union_entry (possibleType : IntrospectionType.t) : JSONSchema6 :=
  empty_node |> set_Ref ("#/definitions/" +:+ IntrospectionType.Name possibleType).

(** How many times one can step from a node into the first member of its
    [anyOf]; a measure that tells a node from a wrapper around it. *)
Fixpoint anyOf_depth (s : JSONSchema6) : nat :=
  match AnyOf s with
  | Some (first :: _) => S (anyOf_depth first)
  | _ => 0
  end.

End Engine.

(** ** The command-line driver (cmd/main.go, lines 307-382)

    [runConversion] reads its configuration and its input from the outside
    world and writes to the standard streams and the file system. The
    world is a record of what each outside call answers; what the driver
    writes is collected in a trace. An [error] is its message. *)

Inductive result (A : Type) :=
  | Ok (a : A)
  | Err (e : string).
Arguments Ok {A} a.
Arguments Err {A} e.

Inductive effect :=
  | Stderr (s : string)
  | Stdout (s : string)
  | MkdirAll (path : string)
  | WriteFile (path data : string).

(** How a call of the driver ends: it returns an error (nil or not), or it
    panics on a nil pointer. *)
Inductive outcome :=
  | Returns (err : option string)
  | Panics.

Inductive step (A : Type) :=
  | Continue (a : A)
  | Stop (o : outcome).
Arguments Continue {A} a.
Arguments Stop {A} o.

(** A driver computation: the trace written so far, and either a value to
    go on with or the way the function ended. *)
Definition M (A : Type) : Type := list effect * step A.

#[global] Instance M_ret : MRet M := fun A a => ([], Continue a).
#[global] Instance M_bind : MBind M := fun A B f m =>
  match m with
  | (tr, Continue a) => let '(tr', r) := f a in (tr ++ tr', r)
  | (tr, Stop o) => (tr, Stop o)
  end.

Definition emit (e : effect) : M unit := ([e], Continue ()).
Definition return_ {A} (err : option string) : M A := ([], Stop (Returns err)).
Definition panic {A} : M A := ([], Stop Panics).

(** [v, err := call; if err != nil { return fmt.Errorf(prefix + "%w", err) }]. *)
Definition try {A} (prefix : string) (r : result A) : M A :=
  match r with
  | Ok a => mret a
  | Err e => return_ (Some (prefix +:+ e))
  end.

Definition newline : string := String "010"%char EmptyString.

(** Whether an effect writes the converted schema somewhere. *)
Definition is_output (e : effect) : bool :=
  match e with
  | Stderr _ => false
  | _ => true
  end.

Section Driver.

Context {JSONValue : Type}.
Variable json_Unmarshal : string -> option (option JSONValue).

Record World := {
  viper_GetString : string -> string;
  viper_GetStringSlice : string -> list string;
  viper_GetBool : string -> bool;
  (** cmd/main.go, lines 217-277: an error, or the non-nil data. *)
  getIntrospectionFromEndpoint : string -> list string -> result IntrospectionQuery.t;
  os_ReadFile : string -> result string;
  (** [json.Unmarshal(data, &introspection)] on a nil pointer: the JSON
      literal null leaves the pointer nil. *)
  json_Unmarshal_introspection : string -> result (option IntrospectionQuery.t);
  (** cmd/main.go, lines 279-305: [(nil, nil)] when nothing is piped. *)
  getIntrospectionFromStdin : result (option IntrospectionQuery.t);
  json_MarshalIndent : @JSONSchema6 JSONValue -> result string;
  filepath_Dir : string -> string;
  os_MkdirAll : string -> option string;
  os_WriteFile : string -> string -> option string
}.

(** Lines 308-337: obtaining the introspection pointer. *)
Definition loadIntrospection (w : World) : M (option IntrospectionQuery.t) :=
  let endpoint := viper_GetString w "endpoint" in
  if negb (endpoint =? "") then
    emit (Stderr ("Fetching schema from endpoint: " +:+ endpoint +:+ newline));;
    introspection ← try ""
      (getIntrospectionFromEndpoint w endpoint (viper_GetStringSlice w "headers"));
    mret (Some introspection)
  else
    let inputFile := viper_GetString w "input" in
    if negb (inputFile =? "") then
      data ← try "error reading input file: " (os_ReadFile w inputFile);
      try "error parsing input file: " (json_Unmarshal_introspection w data)
    else
      introspection ← try "" (getIntrospectionFromStdin w);
      match introspection with
      | None =>
          return_ (Some
            "no input provided: use --endpoint, --input, or pipe data to stdin")
      | Some _ => mret introspection
      end.

(** Lines 339-381: validation of the id-type, conversion and output. *)
Definition convertAndWrite (w : World) (introspection : option IntrospectionQuery.t)
  : M unit :=
  let idMapping : IDTypeMapping := viper_GetString w "id-type" in
  if negb (IsValidIDTypeMapping idMapping) then
    return_ (Some ("invalid id-type mapping: " +:+ idMapping))
  else
    let opts :=
      {| Options.IgnoreInternals := viper_GetBool w "ignore-internals";
         Options.NullableArrayItems := viper_GetBool w "nullable-array-items";
         Options.IDTypeMapping := idMapping |} in
    match introspection with
    | None => panic
    | Some doc =>
        let '(schema, err) := FromIntrospectionQuery json_Unmarshal doc (Some opts) in
        match err with
        | Some e => return_ (Some ("error converting to JSON Schema: " +:+ e))
        | None =>
            output ← try "error marshaling JSON Schema: " (json_MarshalIndent w schema);
            let outputFile := viper_GetString w "output" in
            if outputFile =? "" then
              emit (Stdout (output +:+ newline));;
              return_ None
            else
              emit (MkdirAll (filepath_Dir w outputFile));;
              match os_MkdirAll w (filepath_Dir w outputFile) with
              | Some e => return_ (Some ("error creating output directory: " +:+ e))
              | None =>
                  emit (WriteFile outputFile output);;
                  match os_WriteFile w outputFile output with
                  | Some e => return_ (Some ("error writing output file: " +:+ e))
                  | None => return_ None
                  end
              end
        end
    end.

(** cmd/main.go, lines 307-382. The body always ends in a return or a
    panic; the trace and that ending are the result. *)
Definition runConversion (w : World) : list effect * outcome :=
  match loadIntrospection w ≫= convertAndWrite w with
  | (tr, Stop o) => (tr, o)
  | (tr, Continue _) => (tr, Returns None)
  end.

End Driver.

(** ** Vocabulary of the statements *)

(** The negation of the test of [filterTypes], on a name. *)
Definition internal_name (k : string) : bool :=
  negb ((String.length k <? 2)%nat || negb (slice_to_2 k =? "__")).

(** The names among which the definitions pass picks its keys. *)
Definition definition_name (ignoreInternals : bool) (k : string) : Prop :=
  k <> "Query" /\ k <> "Mutation" /\
  ~ (ignoreInternals = true /\ exists rest, k = "__" +:+ rest).

(** The types of a list that carry the name [k], in order. *)
Definition named (k : string) (types : list IntrospectionType.t)
  : list IntrospectionType.t :=
  filter (fun t => IntrospectionType.Name t = k) types.

(** A reference with every NON_NULL wrapper that has an inner reference
    removed, at every level of the chain. *)
Fixpoint strip_non_null (typeRef : IntrospectionTypeRef.t) : IntrospectionTypeRef.t :=
  if IntrospectionTypeRef.Kind typeRef =? "NON_NULL" then
    match IntrospectionTypeRef.OfType typeRef with
    | Some ofType => strip_non_null ofType
    | None => typeRef
    end
  else
    IntrospectionTypeRef.mk
      (IntrospectionTypeRef.Kind typeRef)
      (IntrospectionTypeRef.Name typeRef)
      (match IntrospectionTypeRef.OfType typeRef with
       | Some ofType => Some (strip_non_null ofType)
       | None => None
       end).

(** The members of a list that carry the name [k], in order, for any
    kind of member (fields, input fields, arguments). *)
Definition with_name {A} (name : A -> string) (k : string) (l : list A) : list A :=
  filter (fun x => name x = k) l.

(** The names of the members whose type is NON_NULL at the outermost
    level, in order. *)
Definition required_names {A} (name : A -> string)
  (type : A -> IntrospectionTypeRef.t) (l : list A) : list string :=
  map name (List.filter (fun x => isRequired (type x)) l).

(** A [required] slice as it is stored: nil when it would be empty. *)
Definition omit_empty (l : list string) : option (list string) :=
  match l with
  | [] => None
  | _ => Some l
  end.

(** The default value that ends up on a node: the parsed literal, or nil
    when there is no literal, when it does not parse, or when it is null. *)
Definition parsed_default {JSONValue : Type}
  (json_Unmarshal : string -> option (option JSONValue))
  (defaultValue : option string) : option JSONValue :=
  match defaultValue with
  | Some literal =>
      match json_Unmarshal literal with
      | Some value => value
      | None => None
      end
  | None => None
  end.

(** The root type a declaration resolves to: the first type of the list
    that carries the declared name, if the root is declared at all. *)
Definition resolve_root (root : option TypeRef.t) (types : list IntrospectionType.t)
  : option IntrospectionType.t :=
  root ≫= fun rootRef => findType types (TypeRef.Name rootRef).

(** The options the driver builds from its flags (lines 345-349). *)
Definition driver_options {JSONValue : Type} (w : @World JSONValue) : Options.t :=
  {| Options.IgnoreInternals := viper_GetBool w "ignore-internals";
     Options.NullableArrayItems := viper_GetBool w "nullable-array-items";
     Options.IDTypeMapping := viper_GetString w "id-type" |}.

(** What a successful run writes, after the input stage: the schema on
    standard output, or the directory and the file it was asked for. *)
Definition output_effects {JSONValue : Type} (w : @World JSONValue) (output : string)
  : list effect :=
  let outputFile := viper_GetString w "output" in
  if outputFile =? "" then [Stdout (output +:+ newline)]
  else [MkdirAll (filepath_Dir w outputFile); WriteFile outputFile output].

(** ** Inputs used as examples *)

(** A parser for the JSON literals null, true and false that rejects
    every other text; it stands for [json.Unmarshal] when the engine is
    run on the examples below. *)
Definition literal_Unmarshal (s : string) : option (option bool) :=
  if s =? "null" then Some None
  else if s =? "true" then Some (Some true)
  else if s =? "false" then Some (Some false)
  else None.

Definition scalar_ref (name : string) : IntrospectionTypeRef.t :=
  IntrospectionTypeRef.mk "SCALAR" (Some name) None.
Definition list_of (inner : IntrospectionTypeRef.t) : IntrospectionTypeRef.t :=
  IntrospectionTypeRef.mk "LIST" None (Some inner).
Definition non_null (inner : IntrospectionTypeRef.t) : IntrospectionTypeRef.t :=
  IntrospectionTypeRef.mk "NON_NULL" None (Some inner).

(** [{queryType:{name:"Query"}, types:[{kind:"OBJECT", name:"Query",
    fields:[{name:"ping", type:NON_NULL(SCALAR Boolean)}]}]}]. *)
Definition ping_document : IntrospectionQuery.t :=
  IntrospectionQuery.mk
    (IntrospectionSchema.mk (Some (TypeRef.mk "Query")) None
       (Some [IntrospectionType.mk "OBJECT" "Query" ""
                (Some [IntrospectionField.mk "ping" "" None
                         (non_null (scalar_ref "Boolean"))])
                None None None None])).

Definition named_type (kind name : string) : IntrospectionType.t :=
  IntrospectionType.mk kind name "" None None None None None.

(** [{kind:"UNION", name:"SearchResult",
    possibleTypes:[{kind:"OBJECT", name:"Human"}, {kind:"OBJECT", name:"Droid"}]}]. *)
Definition search_result_union : IntrospectionType.t :=
  IntrospectionType.mk "UNION" "SearchResult" "" None None None None
    (Some [named_type "OBJECT" "Human"; named_type "OBJECT" "Droid"]).

(** [{kind:"ENUM", name:"Episode", enumValues:[{name:"NEWHOPE",
    description:"Released in 1977."}, {name:"EMPIRE", description:""}]}]. *)
Definition episode_enum : IntrospectionType.t :=
  IntrospectionType.mk "ENUM" "Episode" "" None None None
    (Some [IntrospectionEnum.mk "NEWHOPE" "Released in 1977.";
           IntrospectionEnum.mk "EMPIRE" ""])
    None.

(** Malformed references: wrappers with no inner reference, a leaf with
    no name. *)
Definition bare_non_null : IntrospectionTypeRef.t :=
  IntrospectionTypeRef.mk "NON_NULL" None None.
Definition bare_list : IntrospectionTypeRef.t :=
  IntrospectionTypeRef.mk "LIST" None None.
Definition nameless_object : IntrospectionTypeRef.t :=
  IntrospectionTypeRef.mk "OBJECT" None None.

Definition nullable_items_options : Options.t :=
  {| Options.IgnoreInternals := true;
     Options.NullableArrayItems := true;
     Options.IDTypeMapping := IDTypeString |}.

(** A document whose query root is declared under the name RootQuery. *)
Definition root_query_type : IntrospectionType.t :=
  IntrospectionType.mk "OBJECT" "RootQuery" ""
    (Some [IntrospectionField.mk "ping" "" None (non_null (scalar_ref "Boolean"))])
    None None None None.
Definition root_query_document : IntrospectionQuery.t :=
  IntrospectionQuery.mk
    (IntrospectionSchema.mk (Some (TypeRef.mk "RootQuery")) None
       (Some [root_query_type; named_type "OBJECT" "Query";
              named_type "SCALAR" "__Internal"])).

(** A document in which two types carry the name Item. *)
Definition duplicate_document : IntrospectionQuery.t :=
  IntrospectionQuery.mk
    (IntrospectionSchema.mk None None
       (Some [named_type "OBJECT" "Item"; named_type "ENUM" "Item"])).

(** A document whose query root has a field of type ID, and options with
    an id mapping that is none of string, number and both. *)
Definition id_document : IntrospectionQuery.t :=
  IntrospectionQuery.mk
    (IntrospectionSchema.mk (Some (TypeRef.mk "Query")) None
       (Some [IntrospectionType.mk "OBJECT" "Query" ""
                (Some [IntrospectionField.mk "node" "" None (scalar_ref "ID")])
                None None None None])).
Definition uuid_options : Options.t :=
  {| Options.IgnoreInternals := true;
     Options.NullableArrayItems := false;
     Options.IDTypeMapping := "uuid" |}.

(** A run of the driver: the flags `--input schema.json --id-type uuid`,
    a file that holds [id_document], and a file system that accepts
    every write. *)
Definition uuid_world : @World bool :=
  {| viper_GetString := fun key =>
       if key =? "input" then "schema.json"
       else if key =? "id-type" then "uuid" else "";
     viper_GetStringSlice := fun _ => [];
     viper_GetBool := fun key => key =? "ignore-internals";
     getIntrospectionFromEndpoint := fun _ _ => Err "error making request: refused";
     os_ReadFile := fun _ => Ok "{...}";
     json_Unmarshal_introspection := fun _ => Ok (Some id_document);
     getIntrospectionFromStdin := Ok None;
     json_MarshalIndent := fun _ => Ok "{...}";
     filepath_Dir := fun _ => ".";
     os_MkdirAll := fun _ => None;
     os_WriteFile := fun _ _ => None |}.

(** [{kind:"INPUT_OBJECT", name:"ReviewInput", inputFields:[
    {name:"stars", type:NON_NULL(SCALAR Int), defaultValue:"five"},
    {name:"public", description:"Shown to everyone.", type:SCALAR Boolean,
     defaultValue:"true"}]}]. *)
Definition review_input : IntrospectionType.t :=
  IntrospectionType.mk "INPUT_OBJECT" "ReviewInput" "" None
    (Some [IntrospectionInput.mk "stars" "" (non_null (scalar_ref "Int")) (Some "five");
           IntrospectionInput.mk "public" "Shown to everyone." (scalar_ref "Boolean")
             (Some "true")])
    None None None.

(** Runs of the driver. Each world answers the flags by [flags] and has
    a file system that accepts every write. *)
Definition world_with (flags : string -> string)
  (endpoint : result IntrospectionQuery.t)
  (file : result (option IntrospectionQuery.t))
  (stdin : result (option IntrospectionQuery.t)) : @World bool :=
  {| viper_GetString := flags;
     viper_GetStringSlice := fun _ => [];
     viper_GetBool := fun key => key =? "ignore-internals";
     getIntrospectionFromEndpoint := fun _ _ => endpoint;
     os_ReadFile := fun _ => Ok "file contents";
     json_Unmarshal_introspection := fun _ => file;
     getIntrospectionFromStdin := stdin;
     json_MarshalIndent := fun _ => Ok "{...}";
     filepath_Dir := fun _ => ".";
     os_MkdirAll := fun _ => None;
     os_WriteFile := fun _ _ => None |}.

(** `--input schema.json --id-type string`, the file holding the JSON
    literal null. *)
Definition null_file_world : @World bool :=
  world_with
    (fun key => if key =? "input" then "schema.json"
                else if key =? "id-type" then "string" else "")
    (Err "unused") (Ok None) (Ok None).

(** `--id-type string` with [ping_document] piped to standard input. *)
Definition piped_world : @World bool :=
  world_with (fun key => if key =? "id-type" then "string" else "")
    (Err "unused") (Ok None) (Ok (Some ping_document)).

(** `--id-type uuid` on a terminal: nothing configured, nothing piped. *)
Definition terminal_world : @World bool :=
  world_with (fun key => if key =? "id-type" then "uuid" else "")
    (Err "unused") (Ok None) (Ok None).

(** `--endpoint http://localhost:8080/query --id-type string`, once with
    nothing else at hand and once with a file and a pipe that both hold a
    document. *)
Definition endpoint_flags (key : string) : string :=
  if key =? "endpoint" then "http://localhost:8080/query"
  else if key =? "id-type" then "string" else "".
Definition endpoint_world : @World bool :=
  world_with endpoint_flags (Ok ping_document) (Err "no such file") (Ok None).
Definition endpoint_world_with_file : @World bool :=
  world_with endpoint_flags (Ok ping_document)
    (Ok (Some id_document)) (Ok (Some id_document)).

(** ** Facts about the helpers *)

Section Facts.

Context {JSONValue : Type}.
Variable json_Unmarshal : string -> option (option JSONValue).

Abbreviation Node := (@JSONSchema6 JSONValue).
Abbreviation World' := (@World JSONValue).
Notation "s |> f" := (f s) (at level 45, left associativity, only parsing).

(** Closes one case of the input stage: the trace is read off the
    computed result, and every effect in it is checked. *)
Ltac load_case :=
  eexists;
  split; [| first [left; eexists; reflexivity | right; eexists; reflexivity]];
  repeat constructor.

Lemma isRootType_true (name : string) :
  isRootType name = true <-> name = "Query" \/ name = "Mutation".
Proof.
  unfold isRootType. rewrite orb_true_iff, !String.eqb_eq. reflexivity.
Qed.

Lemma isRequired_true (typeRef : IntrospectionTypeRef.t) :
  isRequired typeRef = true <-> IntrospectionTypeRef.Kind typeRef = "NON_NULL".
Proof. unfold isRequired. apply String.eqb_eq. Qed.

Lemma IsValidIDTypeMapping_true (mapping : IDTypeMapping) :
  IsValidIDTypeMapping mapping = true <->
  mapping = "string" \/ mapping = "number" \/ mapping = "both".
Proof.
  unfold IsValidIDTypeMapping.
  destruct (String.eqb_spec mapping "string"); [tauto|].
  destruct (String.eqb_spec mapping "number"); [tauto|].
  destruct (String.eqb_spec mapping "both"); [tauto|].
  split; [discriminate | tauto].
Qed.

(** A loop that appends one element per iteration builds a [map]. *)
Lemma fold_left_append_map {A B} (f : A -> B) (l : list A) (init : list B) :
  fold_left (fun acc x => acc ++ [f x]) l init = init ++ map f l.
Proof.
  revert init. induction l as [|x l IH]; intros init; simpl.
  - by rewrite app_nil_r.
  - rewrite IH. by rewrite <- app_assoc.
Qed.

Lemma anyOf_depth_wrapper (s other : Node) :
  anyOf_depth (empty_node |> set_AnyOf (Some [s; other])) = S (anyOf_depth s).
Proof. reflexivity. Qed.

Lemma node_neq_wrapper (s other : Node) :
  s <> (empty_node |> set_AnyOf (Some [s; other])).
Proof.
  intros Heq. apply (f_equal anyOf_depth) in Heq.
  rewrite anyOf_depth_wrapper in Heq. lia.
Qed.

(** ** The scalar mapper *)

(** C10: for every scalar name, built-in or custom, and every ID mapping,
    the node returned by [processScalar] carries that name as its title. *)
Theorem processScalar_title (name : string) (idMapping : IDTypeMapping) :
  Title (@processScalar JSONValue name idMapping) = name.
Proof.
  unfold processScalar.
  repeat match goal with
         | |- context [if ?b then _ else _] => destruct b
         end; reflexivity.
Qed.

(** ** The type-reference resolver *)

Lemma processTypeRef_unfold (typeRef : IntrospectionTypeRef.t) (opts : Options.t) :
  @processTypeRef JSONValue typeRef opts =
  if IntrospectionTypeRef.Kind typeRef =? "NON_NULL" then
    match IntrospectionTypeRef.OfType typeRef with
    | Some ofType => processTypeRef ofType opts
    | None => empty_node
    end
  else if IntrospectionTypeRef.Kind typeRef =? "LIST" then
    match IntrospectionTypeRef.OfType typeRef with
    | Some ofType =>
        let items := processTypeRef ofType opts in
        let schema :=
          empty_node |> set_Type (type_string "array") |> set_Items (Some items) in
        if Options.NullableArrayItems opts && negb (isRequired ofType) then
          schema |> set_Items (Some (empty_node |> set_AnyOf
            (Some [items; empty_node |> set_Type (type_string "null")])))
        else schema
    | None => empty_node |> set_Type (type_string "array")
    end
  else if IntrospectionTypeRef.Kind typeRef =? "SCALAR" then
    match IntrospectionTypeRef.Name typeRef with
    | Some name => processScalar name (Options.IDTypeMapping opts)
    | None => empty_node
    end
  else
    match IntrospectionTypeRef.Name typeRef with
    | Some name => empty_node |> set_Ref (definitions_ref name)
    | None => empty_node
    end.
Proof. destruct typeRef; reflexivity. Qed.

(** C2: a NON_NULL reference with an inner reference resolves to exactly
    the node of the inner reference; so NON_NULL around LIST around SCALAR
    resolves to the node of the LIST-around-SCALAR chain below it. *)
Theorem processTypeRef_NON_NULL
  (typeRef ofType : IntrospectionTypeRef.t) (opts : Options.t) :
  IntrospectionTypeRef.Kind typeRef = "NON_NULL" ->
  IntrospectionTypeRef.OfType typeRef = Some ofType ->
  @processTypeRef JSONValue typeRef opts = processTypeRef ofType opts.
Proof.
  intros Hkind Hof. rewrite processTypeRef_unfold, Hkind, Hof. reflexivity.
Qed.

(** C3: a LIST reference with an inner reference resolves to an array
    node whose items are the node of the inner reference, and the items
    are the wrapper [{anyOf: [inner node, {type: null}]}] exactly when
    [NullableArrayItems] is set and the inner kind is not NON_NULL. *)
Theorem processTypeRef_LIST
  (typeRef ofType : IntrospectionTypeRef.t) (opts : Options.t) :
  IntrospectionTypeRef.Kind typeRef = "LIST" ->
  IntrospectionTypeRef.OfType typeRef = Some ofType ->
  let inner : Node := processTypeRef ofType opts in
  let wrapper : Node :=
    empty_node |> set_AnyOf (Some [inner; empty_node |> set_Type (type_string "null")]) in
  let nullable :=
    Options.NullableArrayItems opts = true /\
    IntrospectionTypeRef.Kind ofType <> "NON_NULL" in
  exists items : Node,
    processTypeRef typeRef opts =
      (empty_node |> set_Type (type_string "array") |> set_Items (Some items)) /\
    (items = wrapper <-> nullable) /\
    (items = inner <-> ~ nullable).
Proof.
  intros Hkind Hof inner wrapper nullable.
  assert (Hneq : inner <> wrapper) by apply node_neq_wrapper.
  assert (Hdec : Options.NullableArrayItems opts && negb (isRequired ofType) = true
                 <-> nullable).
  { unfold nullable. rewrite andb_true_iff, negb_true_iff.
    rewrite <- not_true_iff_false, isRequired_true. reflexivity. }
  rewrite processTypeRef_unfold, Hkind, Hof. simpl. fold inner. fold wrapper.
  destruct (Options.NullableArrayItems opts && negb (isRequired ofType)) eqn:Hb.
  - exists wrapper. split; [reflexivity|].
    assert (nullable) by (apply Hdec; reflexivity).
    split; split; intros; try tauto; congruence.
  - exists inner. split; [reflexivity|].
    assert (~ nullable) by (rewrite <- Hdec; discriminate).
    split; split; intros; try tauto; congruence.
Qed.

(** C7, as the code has it: a NON_NULL reference with no inner reference
    and a leaf reference with no name resolve to the empty node (no type,
    no [$ref]); a LIST reference with no inner reference resolves to a
    node that carries [type: array] and nothing else. The resolver is a
    total function, so no case raises an error. *)
Theorem processTypeRef_malformed (typeRef : IntrospectionTypeRef.t) (opts : Options.t) :
  (IntrospectionTypeRef.Kind typeRef = "NON_NULL" ->
   IntrospectionTypeRef.OfType typeRef = None ->
   @processTypeRef JSONValue typeRef opts = empty_node) /\
  (IntrospectionTypeRef.Kind typeRef = "LIST" ->
   IntrospectionTypeRef.OfType typeRef = None ->
   @processTypeRef JSONValue typeRef opts =
     (empty_node |> set_Type (type_string "array"))) /\
  (IntrospectionTypeRef.Kind typeRef <> "NON_NULL" ->
   IntrospectionTypeRef.Kind typeRef <> "LIST" ->
   IntrospectionTypeRef.Name typeRef = None ->
   @processTypeRef JSONValue typeRef opts = empty_node).
Proof.
  rewrite processTypeRef_unfold. repeat split.
  - intros -> ->. reflexivity.
  - intros -> ->. reflexivity.
  - intros Hnn Hlist ->.
    apply String.eqb_neq in Hnn, Hlist. rewrite Hnn, Hlist.
    destruct (IntrospectionTypeRef.Kind typeRef =? "SCALAR"); reflexivity.
Qed.

(** ** The type body builder *)

(** C5: for a type of kind ENUM the node has type string, and its anyOf
    has one entry per enum value, in order; the i-th entry's enum list is
    the singleton of the i-th value's name, and its title and description
    are both that value's description. *)
Theorem processType_ENUM (t : IntrospectionType.t) (opts : Options.t) :
  IntrospectionType.Kind t = "ENUM" ->
  let node := processType json_Unmarshal t opts in
  let values := range (IntrospectionType.EnumValues t) in
  Type_ node = Some (TypeString "string") /\
  (exists anyOf,
     AnyOf node = Some anyOf /\
     length anyOf = length values /\
     forall i enumValue,
       values !! i = Some enumValue ->
       exists entry,
         anyOf !! i = Some entry /\
         Enum entry = Some [IntrospectionEnum.Name enumValue] /\
         Title entry = IntrospectionEnum.Description enumValue /\
         Description entry = IntrospectionEnum.Description enumValue /\
         entry = enum_entry enumValue).
Proof.
  intros Hkind node values. subst node. unfold processType.
  rewrite Hkind. cbn -[fold_left].
  split; [reflexivity|].
  exists (map enum_entry values). split.
  - f_equal. apply (fold_left_append_map enum_entry values []).
  - split; [apply length_map|].
    intros i enumValue Hi. exists (enum_entry enumValue).
    rewrite list_lookup_fmap, Hi. repeat split; reflexivity.
Qed.

(** For a type of kind UNION: the [delete] of line 236 removes the key
    "type" from the (empty) properties map, so the [Type] field of the
    base node stays "object"; oneOf has one reference per possible type,
    in order. *)
Lemma processType_UNION (t : IntrospectionType.t) (opts : Options.t) :
  IntrospectionType.Kind t = "UNION" ->
  let node := processType json_Unmarshal t opts in
  Type_ node = Some (TypeString "object") /\
  Properties node = Some ∅ /\
  OneOf node = Some (map union_entry (range (IntrospectionType.PossibleTypes t))).
Proof.
  intros Hkind node. subst node. unfold processType.
  rewrite Hkind. cbn -[fold_left].
  repeat split.
  f_equal. apply (fold_left_append_map union_entry _ []).
Qed.

(** C4, at the union SearchResult = Human | Droid: oneOf is the two
    references, in order, but the node still carries [type: object]. *)
Theorem processType_union_keeps_type (opts : Options.t) :
  let node := processType json_Unmarshal search_result_union opts in
  Type_ node = Some (TypeString "object") /\
  OneOf node =
    Some [empty_node |> set_Ref "#/definitions/Human";
          empty_node |> set_Ref "#/definitions/Droid"].
Proof.
  destruct (processType_UNION search_result_union opts eq_refl) as (Ht & _ & Ho).
  split; [exact Ht | exact Ho].
Qed.

(** ** The schema assembler *)


Lemma Schema_set_Properties v (s : Node) : Schema (s |> set_Properties v) = Schema s.
Proof. by destruct s. Qed.

Lemma Schema_set_Definitions v (s : Node) : Schema (s |> set_Definitions v) = Schema s.
Proof. by destruct s. Qed.

Lemma Definitions_set_Properties v (s : Node) :
  Definitions (s |> set_Properties v) = Definitions s.
Proof. by destruct s. Qed.

Lemma Definitions_set_Definitions v (s : Node) :
  Definitions (s |> set_Definitions v) = v.
Proof. by destruct s. Qed.

Lemma Schema_assign_root key root types opts (s : Node) :
  Schema (assign_root json_Unmarshal key root types opts s) = Schema s.
Proof.
  unfold assign_root. destruct root, types; try reflexivity.
  destruct (findType _ _); [apply Schema_set_Properties | reflexivity].
Qed.

Lemma Definitions_assign_root key root types opts (s : Node) :
  Definitions (assign_root json_Unmarshal key root types opts s) = Definitions s.
Proof.
  unfold assign_root. destruct root, types; try reflexivity.
  destruct (findType _ _); [apply Definitions_set_Properties | reflexivity].
Qed.

Lemma Schema_assign_definitions types opts (s : Node) :
  Schema (assign_definitions json_Unmarshal types opts s) = Schema s.
Proof.
  unfold assign_definitions. destruct types; [apply Schema_set_Definitions | reflexivity].
Qed.

(** C9: whatever the document and the options (nil included, which stands
    for ignoreInternals=true, nullableArrayItems=false, idTypeMapping=string),
    [FromIntrospectionQuery] returns a nil error and a schema whose
    [$schema] is the draft-06 identifier. *)
Theorem FromIntrospectionQuery_never_fails
  (introspection : IntrospectionQuery.t) (opts : option Options.t) :
  snd (FromIntrospectionQuery json_Unmarshal introspection opts) = None /\
  Schema (fst (FromIntrospectionQuery json_Unmarshal introspection opts)) =
    "http://json-schema.org/draft-06/schema#" /\
  FromIntrospectionQuery json_Unmarshal introspection None =
    FromIntrospectionQuery json_Unmarshal introspection
      (Some (Options.mk true false "string")).
Proof.
  split; [reflexivity|]. split; [|reflexivity].
  unfold FromIntrospectionQuery. cbn [fst].
  rewrite Schema_assign_definitions, !Schema_assign_root. reflexivity.
Qed.

(** The loop of [filterTypes] keeps, in order, the types that pass its test. *)
Lemma fold_left_append_filter {A} (p : A -> bool) (l init : list A) :
  fold_left (fun acc x => if p x then acc ++ [x] else acc) l init =
  init ++ List.filter p l.
Proof.
  revert init. induction l as [|x l IH]; intros init; simpl.
  - by rewrite app_nil_r.
  - rewrite IH. destruct (p x); [|reflexivity]. by rewrite <- app_assoc.
Qed.

Lemma filterTypes_filter types ignoreInternals :
  filterTypes types ignoreInternals =
  List.filter (fun t => negb ignoreInternals || keepType t) types.
Proof.
  unfold filterTypes. destruct ignoreInternals; simpl.
  - apply (fold_left_append_filter keepType types []).
  - induction types as [|t l IH]; simpl; congruence.
Qed.

Lemma keepType_internal_name (t : IntrospectionType.t) :
  keepType t = negb (internal_name (IntrospectionType.Name t)).
Proof. unfold keepType, internal_name. by rewrite negb_involutive. Qed.

(** The test of [filterTypes] fails exactly on the names that begin with
    two underscores. *)
Lemma internal_name_true (k : string) :
  internal_name k = true <-> exists rest, k = "__" +:+ rest.
Proof.
  unfold internal_name, slice_to_2. rewrite negb_true_iff.
  destruct k as [|a [|b rest]]; simpl.
  - split; [discriminate | intros [? ?]; discriminate].
  - split; [discriminate | intros [? ?]; discriminate].
  - assert (Hsub : String.substring 0 0 rest = "") by (destruct rest; reflexivity).
    rewrite Hsub.
    destruct (Ascii.eqb_spec a "_"%char) as [->|Ha];
      [destruct (Ascii.eqb_spec b "_"%char) as [->|Hb]|]; simpl.
    + split; [intros _; exists rest; reflexivity | reflexivity].
    + split; [discriminate | intros [rest' [= Hb' _]]; congruence].
    + split; [discriminate | intros [rest' [= Ha' _ _]]; congruence].
Qed.

Lemma named_cons k t types :
  named k (t :: types) =
  if decide (IntrospectionType.Name t = k) then t :: named k types else named k types.
Proof. unfold named. rewrite filter_cons. reflexivity. Qed.

Lemma named_filterTypes k types ignoreInternals :
  named k (filterTypes types ignoreInternals) =
  if ignoreInternals && internal_name k then [] else named k types.
Proof.
  rewrite filterTypes_filter.
  induction types as [|t l IH]; simpl.
  - by destruct (_ && _).
  - rewrite named_cons, keepType_internal_name.
    destruct (negb ignoreInternals || _) eqn:Hkeep.
    + rewrite named_cons, IH.
      case_decide as Hk; [|reflexivity]. subst k.
      destruct ignoreInternals; simpl in *; [|reflexivity].
      apply negb_true_iff in Hkeep. rewrite Hkeep. reflexivity.
    + rewrite IH. apply orb_false_iff in Hkeep as [Hig Hk].
      apply negb_false_iff in Hig, Hk. subst ignoreInternals. simpl.
      case_decide as Hname; [|reflexivity]. subst k. rewrite Hk.
      reflexivity.
Qed.

(** The definitions loop (lines 146-150), run from a map [m0]: a key that
    is not a root name ends up bound to the node of the last type of that
    name; other keys keep what [m0] gave them. *)
Lemma definitions_loop (f : IntrospectionType.t -> Node) types (m0 : gmap string Node) :
  exists m,
    fold_left
      (fun defs t =>
         if negb (isRootType (IntrospectionType.Name t))
         then assign_property (IntrospectionType.Name t) (f t) defs
         else defs)
      types (Some m0) = Some m /\
    forall k,
      m !! k =
      match last (named k types) with
      | Some t => if isRootType k then m0 !! k else Some (f t)
      | None => m0 !! k
      end.
Proof.
  revert m0. induction types as [|t l IH]; intros m0; simpl.
  - exists m0. split; [reflexivity|]. intros k. reflexivity.
  - destruct (isRootType (IntrospectionType.Name t)) eqn:Hroot; simpl.
    + destruct (IH m0) as (m & Hm & Hlook). exists m. split; [exact Hm|].
      intros k. rewrite Hlook, named_cons. case_decide as Hk; [|reflexivity].
      subst k. rewrite Hroot, last_cons.
      destruct (last (named _ l)); reflexivity.
    + destruct (IH (<[IntrospectionType.Name t := f t]> m0)) as (m & Hm & Hlook).
      exists m. split; [exact Hm|].
      intros k. rewrite Hlook, named_cons. case_decide as Hk.
      * subst k. rewrite Hroot, last_cons, lookup_insert_eq.
        destruct (last (named _ l)); reflexivity.
      * rewrite lookup_insert_ne by exact Hk. reflexivity.
Qed.

Lemma definition_name_false (ignoreInternals : bool) (k : string) :
  isRootType k || (ignoreInternals && internal_name k) = false <->
  definition_name ignoreInternals k.
Proof.
  unfold definition_name.
  rewrite orb_false_iff, <- !not_true_iff_false, isRootType_true.
  rewrite andb_true_iff, internal_name_true. tauto.
Qed.

(** What the definitions map of the result binds a key to. *)
Lemma definitions_lookup
  (introspection : IntrospectionQuery.t) (opts : option Options.t) :
  let o := match opts with Some o => o | None => DefaultOptions end in
  let types :=
    range (IntrospectionSchema.Types (IntrospectionQuery.Schema introspection)) in
  exists m,
    Definitions (fst (FromIntrospectionQuery json_Unmarshal introspection opts))
      = Some m /\
    forall k,
      m !! k =
      if isRootType k || (Options.IgnoreInternals o && internal_name k) then None
      else (fun t => processType json_Unmarshal t o) <$> last (named k types).
Proof.
  intros o types. unfold FromIntrospectionQuery. cbn [fst]. fold o.
  unfold assign_definitions. subst types.
  destruct (IntrospectionSchema.Types _) as [l|]; simpl.
  - rewrite Definitions_set_Definitions, !Definitions_assign_root. simpl.
    destruct (definitions_loop (fun t => processType json_Unmarshal t o)
                (filterTypes l (Options.IgnoreInternals o)) ∅) as (m & Hm & Hlook).
    exists m. split; [exact Hm|].
    intros k. rewrite Hlook, named_filterTypes, lookup_empty.
    destruct (isRootType k), (Options.IgnoreInternals o && internal_name k); simpl;
      try reflexivity; destruct (last _); reflexivity.
  - rewrite !Definitions_assign_root. simpl. exists ∅. split; [reflexivity|].
    intros k. rewrite lookup_empty. by destruct (_ || _).
Qed.

(** C1, as the code has it: the definitions map binds exactly the names
    of the document's types that are neither the literal Query nor the
    literal Mutation and, when ignoreInternals is set, do not begin with
    two underscores; each such name is bound to [processType] of the last
    type of the list carrying it. So the keys Query and Mutation never
    occur, and no key beginning with two underscores occurs when
    ignoreInternals is set. *)
Theorem definitions_contents
  (introspection : IntrospectionQuery.t) (opts : option Options.t) :
  let o := match opts with Some o => o | None => DefaultOptions end in
  let types :=
    range (IntrospectionSchema.Types (IntrospectionQuery.Schema introspection)) in
  exists m,
    Definitions (fst (FromIntrospectionQuery json_Unmarshal introspection opts))
      = Some m /\
    (forall k v,
       m !! k = Some v <->
       definition_name (Options.IgnoreInternals o) k /\
       exists t, last (named k types) = Some t /\ v = processType json_Unmarshal t o) /\
    (forall k,
       k ∈ dom m <->
       definition_name (Options.IgnoreInternals o) k /\
       exists t, t ∈ types /\ IntrospectionType.Name t = k) /\
    m !! "Query" = None /\
    m !! "Mutation" = None /\
    (forall rest, Options.IgnoreInternals o = true -> m !! ("__" +:+ rest) = None).
Proof.
  intros o types.
  destruct (definitions_lookup introspection opts) as (m & Hm & Hlook).
  fold o in Hlook. fold types in Hlook.
  exists m. split; [exact Hm|].
  assert (Hiff : forall k v,
    m !! k = Some v <->
    definition_name (Options.IgnoreInternals o) k /\
    exists t, last (named k types) = Some t /\ v = processType json_Unmarshal t o).
  { intros k v. rewrite Hlook, <- definition_name_false.
    destruct (isRootType k || _).
    - split; [discriminate | intros [? _]; discriminate].
    - rewrite fmap_Some. split.
      + intros (t & Ht & ->). eauto.
      + intros (_ & t & Ht & ->). eauto. }
  split; [exact Hiff|]. split; [|repeat split].
  - intros k. rewrite elem_of_dom. unfold is_Some. split.
    + intros [v Hv]. apply Hiff in Hv as (Hname & t & Ht & _).
      split; [exact Hname|]. exists t.
      apply last_Some_elem_of, list_elem_of_filter in Ht. tauto.
    + intros (Hname & t & Ht & Hk).
      assert (Hin : t ∈ named k types) by (apply list_elem_of_filter; tauto).
      apply elem_of_not_nil, last_is_Some in Hin as [t' Ht'].
      exists (processType json_Unmarshal t' o). apply Hiff. eauto.
  - rewrite Hlook. reflexivity.
  - rewrite Hlook. reflexivity.
  - intros rest Hig. rewrite Hlook, Hig.
    assert (Hint : internal_name ("__" +:+ rest) = true)
      by (apply internal_name_true; eauto).
    rewrite Hint. by rewrite orb_true_r.
Qed.

(** ** The scenario of the spec *)

(** C6, as the code has it: converting the document whose query root
    Query has the one field ping of type NON_NULL Boolean, with default
    options, gives [required = ["ping"]] for Query and a return node with
    [type: boolean], the Boolean description and also [title: Boolean]. *)
Theorem ping_scenario :
  let schema := fst (FromIntrospectionQuery json_Unmarshal ping_document None) in
  node_at ["Query"; "ping"; "return"] schema =
    Some (empty_node |> set_Type (type_string "boolean")
                     |> set_Title "Boolean"
                     |> set_Description
                          "The `Boolean` scalar type represents `true` or `false`.") /\
  Required <$> node_at ["Query"] schema = Some (Some ["ping"]).
Proof. split; vm_compute; reflexivity. Qed.

(** ** The command-line driver *)

(** Obtaining the input either yields a pointer or returns an error; it
    writes nothing but a notice on standard error. *)
Lemma loadIntrospection_cases (w : World') :
  exists tr,
    Forall (fun ev => is_output ev = false) tr /\
    ((exists p, loadIntrospection w = (tr, Continue p)) \/
     (exists e, loadIntrospection w = (tr, Stop (Returns (Some e))))).
Proof.
  unfold loadIntrospection.
  destruct (negb (viper_GetString w "endpoint" =? "")).
  - destruct (getIntrospectionFromEndpoint w _ _) as [doc|e]; cbn; load_case.
  - destruct (negb (viper_GetString w "input" =? "")).
    + destruct (os_ReadFile w _) as [data|e]; cbn; [|load_case].
      destruct (json_Unmarshal_introspection w data) as [p|e]; cbn; load_case.
    + destruct (getIntrospectionFromStdin w) as [[doc|]|e]; cbn; load_case.
Qed.

(** C8, as the code has it: the check of the id-type is made by the
    command-line driver. When the configured id-type is not string, number
    or both, [runConversion] returns an error and writes no schema, and
    that error is the invalid-id-type error whenever the input was
    obtained. The engine itself does not check: it returns a nil error and
    types ID as for string. *)
Theorem invalid_id_type (w : World') :
  IsValidIDTypeMapping (viper_GetString w "id-type") = false ->
  (exists e, snd (runConversion json_Unmarshal w) = Returns (Some e)) /\
  Forall (fun ev => is_output ev = false) (fst (runConversion json_Unmarshal w)) /\
  (forall tr p,
     loadIntrospection w = (tr, Continue p) ->
     runConversion json_Unmarshal w =
       (tr, Returns (Some ("invalid id-type mapping: " +:+ viper_GetString w "id-type")))) /\
  (forall introspection o,
     Options.IDTypeMapping o = viper_GetString w "id-type" ->
     snd (FromIntrospectionQuery json_Unmarshal introspection (Some o)) = None) /\
  @processScalar JSONValue "ID" (viper_GetString w "id-type") =
    processScalar "ID" IDTypeString.
Proof.
  intros Hinvalid.
  assert (Hrun : forall tr p,
    loadIntrospection w = (tr, Continue p) ->
    runConversion json_Unmarshal w =
      (tr, Returns (Some ("invalid id-type mapping: " +:+ viper_GetString w "id-type")))).
  { intros tr p Hload. unfold runConversion. rewrite Hload. cbn.
    unfold convertAndWrite. rewrite Hinvalid. cbn. by rewrite app_nil_r. }
  assert (Hscalar : @processScalar JSONValue "ID" (viper_GetString w "id-type") =
                    processScalar "ID" IDTypeString).
  { unfold processScalar. cbn.
    destruct (String.eqb_spec (viper_GetString w "id-type") IDTypeNumber) as [Heq|_].
    { rewrite Heq in Hinvalid. discriminate. }
    destruct (String.eqb_spec (viper_GetString w "id-type") IDTypeBoth) as [Heq|_].
    { rewrite Heq in Hinvalid. discriminate. }
    reflexivity. }
  assert (Hres : exists tr e,
    runConversion json_Unmarshal w = (tr, Returns (Some e)) /\
    Forall (fun ev => is_output ev = false) tr).
  { destruct (loadIntrospection_cases w) as (tr & Htr & [[p Hload] | [e Hload]]).
    - eexists tr, _. split; [exact (Hrun tr p Hload) | exact Htr].
    - exists tr, e. split; [|exact Htr].
      unfold runConversion. rewrite Hload. reflexivity. }
  destruct Hres as (tr & e & Hres & Htr).
  split; [rewrite Hres; eauto|].
  split; [rewrite Hres; exact Htr|].
  split; [exact Hrun|].
  split; [reflexivity | exact Hscalar].
Qed.

End Facts.

(** ** The statements at concrete inputs *)

(** C2 at NON_NULL around LIST around SCALAR Int. *)
Lemma processTypeRef_NON_NULL_witness :
  IntrospectionTypeRef.Kind (non_null (list_of (scalar_ref "Int"))) = "NON_NULL" /\
  IntrospectionTypeRef.OfType (non_null (list_of (scalar_ref "Int")))
    = Some (list_of (scalar_ref "Int")) /\
  @processTypeRef bool (non_null (list_of (scalar_ref "Int"))) DefaultOptions =
    processTypeRef (list_of (scalar_ref "Int")) DefaultOptions.
Proof.
  split; [reflexivity|]. split; [reflexivity|].
  apply processTypeRef_NON_NULL; reflexivity.
Defined.

(** C3 at LIST around SCALAR Int, with nullableArrayItems set. *)
Lemma processTypeRef_LIST_witness :
  IntrospectionTypeRef.Kind (list_of (scalar_ref "Int")) = "LIST" /\
  IntrospectionTypeRef.OfType (list_of (scalar_ref "Int")) = Some (scalar_ref "Int") /\
  exists items : @JSONSchema6 bool,
    processTypeRef (list_of (scalar_ref "Int")) nullable_items_options =
      set_Items (Some items) (set_Type (type_string "array") empty_node) /\
    (items =
       set_AnyOf (Some [processTypeRef (scalar_ref "Int") nullable_items_options;
                        set_Type (type_string "null") empty_node]) empty_node
     <-> Options.NullableArrayItems nullable_items_options = true /\
         IntrospectionTypeRef.Kind (scalar_ref "Int") <> "NON_NULL") /\
    (items = processTypeRef (scalar_ref "Int") nullable_items_options
     <-> ~ (Options.NullableArrayItems nullable_items_options = true /\
            IntrospectionTypeRef.Kind (scalar_ref "Int") <> "NON_NULL")).
Proof.
  split; [reflexivity|]. split; [reflexivity|].
  exact (processTypeRef_LIST (list_of (scalar_ref "Int")) (scalar_ref "Int")
           nullable_items_options eq_refl eq_refl).
Defined.

(** C5 at the enum Episode. *)
Lemma processType_ENUM_witness :
  IntrospectionType.Kind episode_enum = "ENUM" /\
  Type_ (processType literal_Unmarshal episode_enum DefaultOptions)
    = Some (TypeString "string") /\
  AnyOf (processType literal_Unmarshal episode_enum DefaultOptions) =
    Some [set_Description "Released in 1977."
            (set_Title "Released in 1977." (set_Enum (Some ["NEWHOPE"]) empty_node));
          set_Enum (Some ["EMPIRE"]) empty_node].
Proof.
  split; [reflexivity|].
  split.
  - exact (proj1 (processType_ENUM literal_Unmarshal episode_enum DefaultOptions eq_refl)).
  - reflexivity.
Defined.

(** C7: a LIST with no inner reference does not resolve to an empty node. *)
Lemma bare_list_is_typed :
  IntrospectionTypeRef.Kind bare_list = "LIST" /\
  IntrospectionTypeRef.OfType bare_list = None /\
  Type_ (@processTypeRef bool bare_list DefaultOptions) = Some (TypeString "array") /\
  @processTypeRef bool bare_list DefaultOptions <> empty_node.
Proof. repeat split; try reflexivity. discriminate. Qed.

(** C7, as the code has it, at the three malformed references. *)
Lemma processTypeRef_malformed_witness :
  @processTypeRef bool bare_non_null DefaultOptions = empty_node /\
  @processTypeRef bool bare_list DefaultOptions =
    set_Type (type_string "array") empty_node /\
  @processTypeRef bool nameless_object DefaultOptions = empty_node.
Proof.
  split; [|split].
  - apply (proj1 (processTypeRef_malformed bare_non_null DefaultOptions)); reflexivity.
  - apply (proj1 (proj2 (processTypeRef_malformed bare_list DefaultOptions)));
      reflexivity.
  - apply (proj2 (proj2 (processTypeRef_malformed nameless_object DefaultOptions)));
      [discriminate | discriminate | reflexivity].
Defined.

(** C1: the declared query root RootQuery is a key of definitions, bound
    to the node of that type; and of two types named Item, the key Item is
    bound to the node of the second, not of the first. *)
Lemma declared_root_is_defined :
  IntrospectionSchema.QueryType (IntrospectionQuery.Schema root_query_document)
    = Some (TypeRef.mk "RootQuery") /\
  Definitions (fst (FromIntrospectionQuery literal_Unmarshal root_query_document None))
    ≫= (.!! "RootQuery")
    = Some (processType literal_Unmarshal root_query_type DefaultOptions) /\
  Definitions (fst (FromIntrospectionQuery literal_Unmarshal duplicate_document None))
    ≫= (.!! "Item")
    = Some (processType literal_Unmarshal (named_type "ENUM" "Item") DefaultOptions) /\
  processType literal_Unmarshal (named_type "ENUM" "Item") DefaultOptions
    <> processType literal_Unmarshal (named_type "OBJECT" "Item") DefaultOptions.
Proof.
  split; [reflexivity|]. split; [vm_compute; reflexivity|].
  split; [vm_compute; reflexivity|]. vm_compute. discriminate.
Qed.

(** C1, as the code has it, on the document with the root RootQuery: definitions
    holds RootQuery and nothing else; the type named Query and the type
    named __Internal are left out. *)
Lemma definitions_contents_witness :
  exists m,
    Definitions (fst (FromIntrospectionQuery literal_Unmarshal root_query_document None))
      = Some m /\
    m !! "RootQuery"
      = Some (processType literal_Unmarshal root_query_type DefaultOptions) /\
    m !! "Query" = None /\
    m !! "__Internal" = None.
Proof.
  destruct (definitions_contents literal_Unmarshal root_query_document None)
    as (m & Hm & Hiff & _ & Hquery & _ & Hinternal).
  exists m. split; [exact Hm|]. split; [|split].
  - apply Hiff. split.
    + repeat split; try discriminate. intros [_ [rest Hrest]]. discriminate.
    + eexists. split; reflexivity.
  - exact Hquery.
  - exact (Hinternal "Internal" eq_refl).
Defined.

(** C6: the return node of ping is not the node that holds only the type
    and the description; it differs in its title. *)
Lemma ping_return_has_title :
  node_at ["Query"; "ping"; "return"]
    (fst (FromIntrospectionQuery literal_Unmarshal ping_document None))
  <> Some (set_Description "The `Boolean` scalar type represents `true` or `false`."
             (set_Type (type_string "boolean") empty_node)) /\
  Title <$> node_at ["Query"; "ping"; "return"]
    (fst (FromIntrospectionQuery literal_Unmarshal ping_document None))
  = Some "Boolean".
Proof. split; [vm_compute; discriminate | vm_compute; reflexivity]. Qed.

(** C8: with the id mapping uuid, which is not valid, the engine returns
    a schema and a nil error, and types the ID field as a string. *)
Lemma unchecked_id_mapping_converts :
  IsValidIDTypeMapping (Options.IDTypeMapping uuid_options) = false /\
  snd (FromIntrospectionQuery literal_Unmarshal id_document (Some uuid_options)) = None /\
  Type_ <$> node_at ["Query"; "node"; "return"]
    (fst (FromIntrospectionQuery literal_Unmarshal id_document (Some uuid_options)))
  = Some (Some (TypeString "string")).
Proof. repeat split; vm_compute; reflexivity. Qed.

(** C8, as the code has it, on the run `--input schema.json --id-type uuid`: the
    input is read, and the run ends with the invalid-id-type error, having
    written nothing. *)
Lemma invalid_id_type_witness :
  IsValidIDTypeMapping (viper_GetString uuid_world "id-type") = false /\
  runConversion literal_Unmarshal uuid_world =
    ([], Returns (Some "invalid id-type mapping: uuid")).
Proof.
  split; [reflexivity|].
  destruct (invalid_id_type literal_Unmarshal uuid_world eq_refl)
    as (_ & _ & Hrun & _).
  exact (Hrun [] (Some id_document) eq_refl).
Defined.

(** ** Further facts: the resolver *)

Section MoreFacts.

Context {JSONValue : Type}.
Variable json_Unmarshal : string -> option (option JSONValue).

Abbreviation Node := (@JSONSchema6 JSONValue).
Abbreviation World' := (@World JSONValue).
Notation "s |> f" := (f s) (at level 45, left associativity, only parsing).

(** Induction along the chain of a type reference. *)
Lemma typeRef_chain_ind (P : IntrospectionTypeRef.t -> Prop) :
  (forall typeRef,
     (forall ofType, IntrospectionTypeRef.OfType typeRef = Some ofType -> P ofType) ->
     P typeRef) ->
  forall typeRef, P typeRef.
Proof.
  intros Hstep. fix IH 1. intros [kind name [ofType|]].
  - apply Hstep. simpl. intros ? [= <-]. apply IH.
  - apply Hstep. simpl. intros ? [=].
Qed.

Lemma strip_non_null_unfold (typeRef : IntrospectionTypeRef.t) :
  strip_non_null typeRef =
  if IntrospectionTypeRef.Kind typeRef =? "NON_NULL" then
    match IntrospectionTypeRef.OfType typeRef with
    | Some ofType => strip_non_null ofType
    | None => typeRef
    end
  else
    IntrospectionTypeRef.mk
      (IntrospectionTypeRef.Kind typeRef)
      (IntrospectionTypeRef.Name typeRef)
      (match IntrospectionTypeRef.OfType typeRef with
       | Some ofType => Some (strip_non_null ofType)
       | None => None
       end).
Proof. destruct typeRef; reflexivity. Qed.

(** Closes a conjunction of field equations on a node that computes. *)
Ltac by_fields := cbn; repeat split; reflexivity.

(** The fields a scalar node never carries. *)
Lemma processScalar_zero_fields (name : string) (idMapping : IDTypeMapping) :
  let node : Node := processScalar name idMapping in
  Schema node = "" /\ Properties node = None /\ Items node = None /\
  Ref node = "" /\ Required node = None /\ Definitions node = None /\
  AnyOf node = None /\ OneOf node = None /\ Default node = None /\
  Enum node = None.
Proof.
  unfold processScalar.
  repeat match goal with
         | |- context [if ?b then _ else _] => destruct b
         end; by_fields.
Qed.

(** The resolver never sets a default. *)
Lemma resolver_Default_nil (typeRef : IntrospectionTypeRef.t) (opts : Options.t) :
  Default (@processTypeRef JSONValue typeRef opts) = None.
Proof.
  induction typeRef as [typeRef IH] using typeRef_chain_ind.
  rewrite processTypeRef_unfold.
  destruct (IntrospectionTypeRef.Kind typeRef =? "NON_NULL").
  { destruct (IntrospectionTypeRef.OfType typeRef) as [ofType|];
      [exact (IH ofType eq_refl) | reflexivity]. }
  destruct (IntrospectionTypeRef.Kind typeRef =? "LIST").
  { destruct (IntrospectionTypeRef.OfType typeRef) as [ofType|]; [|reflexivity].
    cbn zeta. destruct (_ && _); reflexivity. }
  destruct (IntrospectionTypeRef.Kind typeRef =? "SCALAR").
  { destruct (IntrospectionTypeRef.Name typeRef) as [name|]; [|reflexivity].
    apply processScalar_zero_fields. }
  destruct (IntrospectionTypeRef.Name typeRef); reflexivity.
Qed.

(** X1: whatever the reference and the options, the node of a type
    reference has no [$schema], properties, required list, definitions,
    top-level anyOf, oneOf, default or enum: the resolver only ever fills
    type, items, [$ref], title and description. *)
Theorem processTypeRef_zero_fields
  (typeRef : IntrospectionTypeRef.t) (opts : Options.t) :
  let node : Node := processTypeRef typeRef opts in
  Schema node = "" /\ Properties node = None /\ Required node = None /\
  Definitions node = None /\ AnyOf node = None /\ OneOf node = None /\
  Default node = None /\ Enum node = None.
Proof.
  induction typeRef as [typeRef IH] using typeRef_chain_ind.
  rewrite processTypeRef_unfold.
  destruct (IntrospectionTypeRef.Kind typeRef =? "NON_NULL").
  { destruct (IntrospectionTypeRef.OfType typeRef) as [ofType|];
      [exact (IH ofType eq_refl) | by_fields]. }
  destruct (IntrospectionTypeRef.Kind typeRef =? "LIST").
  { destruct (IntrospectionTypeRef.OfType typeRef) as [ofType|]; [|by_fields].
    cbn zeta. destruct (_ && _); by_fields. }
  destruct (IntrospectionTypeRef.Kind typeRef =? "SCALAR").
  { destruct (IntrospectionTypeRef.Name typeRef) as [name|]; [|by_fields].
    pose proof (processScalar_zero_fields name (Options.IDTypeMapping opts)) as H.
    destruct H as (? & ? & ? & ? & ? & ? & ? & ? & ? & ?).
    cbn zeta. repeat split; assumption. }
  destruct (IntrospectionTypeRef.Name typeRef); by_fields.
Qed.

(** X2: a node of a type reference that carries a [$ref] carries nothing
    else, and the [$ref] points into the definitions: either [$ref] is
    empty, or the node is exactly [{$ref: "#/definitions/<name>"}] for
    some name. *)
Theorem processTypeRef_ref_alone
  (typeRef : IntrospectionTypeRef.t) (opts : Options.t) :
  Ref (@processTypeRef JSONValue typeRef opts) = "" \/
  exists name,
    @processTypeRef JSONValue typeRef opts =
      (empty_node |> set_Ref ("#/definitions/" +:+ name)).
Proof.
  induction typeRef as [typeRef IH] using typeRef_chain_ind.
  rewrite processTypeRef_unfold.
  destruct (IntrospectionTypeRef.Kind typeRef =? "NON_NULL").
  { destruct (IntrospectionTypeRef.OfType typeRef) as [ofType|];
      [exact (IH ofType eq_refl) | left; reflexivity]. }
  destruct (IntrospectionTypeRef.Kind typeRef =? "LIST").
  { left. destruct (IntrospectionTypeRef.OfType typeRef) as [ofType|]; [|reflexivity].
    cbn zeta. destruct (_ && _); reflexivity. }
  destruct (IntrospectionTypeRef.Kind typeRef =? "SCALAR").
  { left. destruct (IntrospectionTypeRef.Name typeRef) as [name|]; [|reflexivity].
    apply processScalar_zero_fields. }
  destruct (IntrospectionTypeRef.Name typeRef) as [name|];
    [right; exists name; reflexivity | left; reflexivity].
Qed.

(** X3: when nullableArrayItems is off, NON_NULL wrappers leave no trace
    in the node: removing every NON_NULL wrapper from a reference, at
    every depth, gives the same node. *)
Theorem processTypeRef_strip_non_null
  (typeRef : IntrospectionTypeRef.t) (opts : Options.t) :
  Options.NullableArrayItems opts = false ->
  @processTypeRef JSONValue (strip_non_null typeRef) opts = processTypeRef typeRef opts.
Proof.
  intros Hoff.
  induction typeRef as [typeRef IH] using typeRef_chain_ind.
  rewrite strip_non_null_unfold, (processTypeRef_unfold typeRef).
  destruct (IntrospectionTypeRef.Kind typeRef =? "NON_NULL") eqn:Hnn.
  { destruct (IntrospectionTypeRef.OfType typeRef) as [ofType|] eqn:Hof.
    - exact (IH ofType eq_refl).
    - rewrite processTypeRef_unfold, Hnn, Hof. reflexivity. }
  rewrite processTypeRef_unfold. cbn [IntrospectionTypeRef.Kind
    IntrospectionTypeRef.Name IntrospectionTypeRef.OfType]. rewrite Hnn.
  destruct (IntrospectionTypeRef.Kind typeRef =? "LIST").
  { destruct (IntrospectionTypeRef.OfType typeRef) as [ofType|]; [|reflexivity].
    cbn zeta. rewrite Hoff, (IH ofType eq_refl). reflexivity. }
  reflexivity.
Qed.

(** ** Further facts: the scalar mapper *)

(** X4: the type of a scalar node, read as a table. It is absent exactly
    for the names other than ID, String, Int, Float and Boolean; number
    for Int and Float alike, and for ID under the mapping number; the
    pair string, number exactly for ID under the mapping both; string for
    String and for ID under every other mapping; boolean for Boolean. *)
Theorem processScalar_type (name : string) (idMapping : IDTypeMapping) :
  let ty := Type_ (@processScalar JSONValue name idMapping) in
  (ty = None <->
     name <> "ID" /\ name <> "String" /\ name <> "Int" /\ name <> "Float" /\
     name <> "Boolean") /\
  (ty = Some (TypeString "string") <->
     name = "String" \/
     (name = "ID" /\ idMapping <> "number" /\ idMapping <> "both")) /\
  (ty = Some (TypeString "number") <->
     name = "Int" \/ name = "Float" \/ (name = "ID" /\ idMapping = "number")) /\
  (ty = Some (TypeStrings ["string"; "number"]) <->
     name = "ID" /\ idMapping = "both") /\
  (ty = Some (TypeString "boolean") <-> name = "Boolean").
Proof.
  unfold processScalar, IDTypeNumber, IDTypeBoth.
  destruct (String.eqb_spec name "ID") as [->|?];
    [destruct (String.eqb_spec idMapping "number") as [->|?];
       [|destruct (String.eqb_spec idMapping "both") as [->|?]]
    |destruct (String.eqb_spec name "String") as [->|?];
       [|destruct (String.eqb_spec name "Int") as [->|?];
          [|destruct (String.eqb_spec name "Float") as [->|?];
             [|destruct (String.eqb_spec name "Boolean") as [->|?]]]]];
    cbn; repeat split; intros; try discriminate; try congruence;
    intuition (try discriminate; try congruence).
Qed.

(** ** Further facts: arguments and input fields *)

Lemma set_Default_None (s : Node) : Default s = None -> (s |> set_Default None) = s.
Proof. destruct s; simpl. intros ->. reflexivity. Qed.

Lemma Default_set_Description d (s : Node) :
  Default (s |> set_Description d) = Default s.
Proof. by destruct s. Qed.

Lemma attach_default_set (defaultValue : option string) (s : Node) :
  Default s = None ->
  attach_default json_Unmarshal defaultValue s =
    (s |> set_Default (parsed_default json_Unmarshal defaultValue)).
Proof.
  intros Hnil. unfold attach_default, parsed_default.
  destruct defaultValue as [literal|]; [destruct (json_Unmarshal literal)|];
    try reflexivity; by rewrite set_Default_None.
Qed.

(** X5: the node of an input field, and likewise of an argument, is the
    node of its type reference with the description replaced by the
    member's own description (also when the reference is a built-in scalar
    with a canned description) and with the default set to the parsed
    literal; a missing literal, a literal that does not parse and the
    literal null all leave the default nil. *)
Theorem processInputValue_processArg
  (input : IntrospectionInput.t) (arg : IntrospectionArg.t) (opts : Options.t) :
  processInputValue json_Unmarshal input opts =
    (processTypeRef (IntrospectionInput.Type_ input) opts
     |> set_Description (IntrospectionInput.Description input)
     |> set_Default (parsed_default json_Unmarshal (IntrospectionInput.DefaultValue input))) /\
  processArg json_Unmarshal arg opts =
    (processTypeRef (IntrospectionArg.Type_ arg) opts
     |> set_Description (IntrospectionArg.Description arg)
     |> set_Default (parsed_default json_Unmarshal (IntrospectionArg.DefaultValue arg))).
Proof.
  unfold processInputValue, processArg.
  split; apply attach_default_set; rewrite Default_set_Description;
    apply resolver_Default_nil.
Qed.

(** ** Further facts: the type body builder *)

Lemma with_name_cons {A} (name : A -> string) k x (l : list A) :
  with_name name k (x :: l) =
  if decide (name x = k) then x :: with_name name k l else with_name name k l.
Proof. unfold with_name. rewrite filter_cons. reflexivity. Qed.

(** The loop shared by object types, input object types and field
    arguments: it binds each member's name to its node, a later member
    replacing an earlier one of the same name, and appends the names of
    the NON_NULL members to [required]. *)
Lemma member_loop {A} (name : A -> string) (node : A -> Node)
  (type : A -> IntrospectionTypeRef.t) (l : list A)
  (m0 : gmap string Node) (r0 : list string) :
  exists m,
    fold_left
      (fun '(props, required) x =>
         (assign_property (name x) (node x) props,
          if isRequired (type x) then required ++ [name x] else required))
      l (Some m0, r0)
    = (Some m, r0 ++ required_names name type l) /\
    forall k,
      m !! k =
      match last (with_name name k l) with
      | Some x => Some (node x)
      | None => m0 !! k
      end.
Proof.
  revert m0 r0. induction l as [|x l IH]; intros m0 r0; simpl.
  - exists m0. rewrite app_nil_r. split; [reflexivity|]. intros k. reflexivity.
  - destruct (IH (<[name x := node x]> m0)
                (if isRequired (type x) then r0 ++ [name x] else r0))
      as (m & Hm & Hlook).
    exists m. split.
    + rewrite Hm. f_equal. unfold required_names. simpl.
      destruct (isRequired (type x)); simpl; [|reflexivity].
      by rewrite <- app_assoc.
    + intros k. rewrite Hlook, with_name_cons. case_decide as Hk.
      * subst k. rewrite last_cons, lookup_insert_eq.
        destruct (last _); reflexivity.
      * rewrite lookup_insert_ne by exact Hk. reflexivity.
Qed.

Lemma assign_required_omit_empty (required : list string) (s : Node) :
  Required s = None ->
  assign_required required s = (s |> set_Required (omit_empty required)).
Proof.
  intros Hnil. unfold assign_required. destruct required; simpl; [|reflexivity].
  destruct s; simpl in *. by subst.
Qed.

Lemma omit_empty_not_empty (l : list string) : omit_empty l <> Some [].
Proof. destruct l; discriminate. Qed.

(** X6: the node of a field always is an object with exactly the two
    properties return and arguments and the field's description. return
    is the node of the field's type; arguments is an object that binds
    each argument name to the node of the last argument of that name, and
    whose required list holds, in order, the names of the arguments whose
    outermost kind is NON_NULL, the list being omitted when it is empty. *)
Theorem processField_shape (field : IntrospectionField.t) (opts : Options.t) :
  let args := range (IntrospectionField.Args field) in
  exists argProps : gmap string Node,
    processField json_Unmarshal field opts =
      (empty_node
       |> set_Type (type_string "object")
       |> set_Description (IntrospectionField.Description field)
       |> set_Properties (Some
            (<["arguments" :=
                 empty_node
                 |> set_Type (type_string "object")
                 |> set_Properties (Some argProps)
                 |> set_Required (omit_empty
                      (required_names IntrospectionArg.Name IntrospectionArg.Type_ args))]>
             (<["return" := processTypeRef (IntrospectionField.Type_ field) opts]> ∅)))) /\
    forall k,
      argProps !! k =
      (fun arg => processArg json_Unmarshal arg opts)
        <$> last (with_name IntrospectionArg.Name k args).
Proof.
  intros args. unfold processField. cbn -[fold_left range].
  destruct (member_loop IntrospectionArg.Name
              (fun arg => processArg json_Unmarshal arg opts)
              IntrospectionArg.Type_ args ∅ []) as (m & Hm & Hlook).
  exists m. split.
  - fold args. rewrite Hm. cbn -[required_names].
    rewrite assign_required_omit_empty by reflexivity. reflexivity.
  - intros k. rewrite Hlook, lookup_empty. destruct (last _); reflexivity.
Qed.

(** X7: for a type of kind OBJECT or INTERFACE the node is an object with
    the type's description; its properties bind each field name to the
    node of the last field of that name; its required list holds, in
    order, the names of the fields whose outermost kind is NON_NULL, and
    is omitted when there is none. *)
Theorem processType_OBJECT (t : IntrospectionType.t) (opts : Options.t) :
  IntrospectionType.Kind t = "OBJECT" \/ IntrospectionType.Kind t = "INTERFACE" ->
  let fields := range (IntrospectionType.Fields t) in
  exists props : gmap string Node,
    processType json_Unmarshal t opts =
      (empty_node
       |> set_Type (type_string "object")
       |> set_Description (IntrospectionType.Description t)
       |> set_Properties (Some props)
       |> set_Required (omit_empty
            (required_names IntrospectionField.Name IntrospectionField.Type_ fields))) /\
    forall k,
      props !! k =
      (fun field => processField json_Unmarshal field opts)
        <$> last (with_name IntrospectionField.Name k fields).
Proof.
  intros Hkind fields. unfold processType.
  assert (Hb : (IntrospectionType.Kind t =? "OBJECT")
               || (IntrospectionType.Kind t =? "INTERFACE") = true).
  { destruct Hkind as [-> | ->]; reflexivity. }
  cbn zeta. rewrite Hb. cbn -[fold_left range].
  destruct (member_loop IntrospectionField.Name
              (fun field => processField json_Unmarshal field opts)
              IntrospectionField.Type_ fields ∅ []) as (m & Hm & Hlook).
  exists m. split.
  - fold fields. rewrite Hm. cbn -[required_names].
    rewrite assign_required_omit_empty by reflexivity. reflexivity.
  - intros k. rewrite Hlook, lookup_empty. destruct (last _); reflexivity.
Qed.

(** X8: for a type of kind INPUT_OBJECT the node is an object with the
    type's description; its properties bind each input field name to the
    node of the last input field of that name (the node of an input
    value, not the return/arguments shape of a field); required is as for
    object types. *)
Theorem processType_INPUT_OBJECT (t : IntrospectionType.t) (opts : Options.t) :
  IntrospectionType.Kind t = "INPUT_OBJECT" ->
  let fields := range (IntrospectionType.InputFields t) in
  exists props : gmap string Node,
    processType json_Unmarshal t opts =
      (empty_node
       |> set_Type (type_string "object")
       |> set_Description (IntrospectionType.Description t)
       |> set_Properties (Some props)
       |> set_Required (omit_empty
            (required_names IntrospectionInput.Name IntrospectionInput.Type_ fields))) /\
    forall k,
      props !! k =
      (fun field => processInputValue json_Unmarshal field opts)
        <$> last (with_name IntrospectionInput.Name k fields).
Proof.
  intros Hkind fields. unfold processType.
  cbn zeta. rewrite Hkind. cbn -[fold_left range].
  destruct (member_loop IntrospectionInput.Name
              (fun field => processInputValue json_Unmarshal field opts)
              IntrospectionInput.Type_ fields ∅ []) as (m & Hm & Hlook).
  exists m. split.
  - fold fields. rewrite Hm. cbn -[required_names].
    rewrite assign_required_omit_empty by reflexivity. reflexivity.
  - intros k. rewrite Hlook, lookup_empty. destruct (last _); reflexivity.
Qed.

(** X9: whatever the kind of a type, known or not, its node carries the
    type's description and a non-nil properties map, never an empty
    required list, and no [$schema], items, [$ref], title, definitions,
    default or enum. *)
Theorem processType_invariants (t : IntrospectionType.t) (opts : Options.t) :
  let node := processType json_Unmarshal t opts in
  Description node = IntrospectionType.Description t /\
  is_Some (Properties node) /\
  Required node <> Some [] /\
  Schema node = "" /\ Items node = None /\ Ref node = "" /\ Title node = "" /\
  Definitions node = None /\ Default node = None /\ Enum node = None.
Proof.
  unfold processType. cbn zeta.
  destruct (_ || _).
  { cbn -[fold_left range].
    destruct (member_loop IntrospectionField.Name
                (fun field => processField json_Unmarshal field opts)
                IntrospectionField.Type_ (range (IntrospectionType.Fields t)) ∅ [])
      as (m & Hm & _).
    rewrite Hm. cbn -[required_names].
    rewrite assign_required_omit_empty by reflexivity. cbn -[required_names].
    repeat split; eauto using omit_empty_not_empty. }
  destruct (_ =? "INPUT_OBJECT").
  { cbn -[fold_left range].
    destruct (member_loop IntrospectionInput.Name
                (fun field => processInputValue json_Unmarshal field opts)
                IntrospectionInput.Type_ (range (IntrospectionType.InputFields t)) ∅ [])
      as (m & Hm & _).
    rewrite Hm. cbn -[required_names].
    rewrite assign_required_omit_empty by reflexivity. cbn -[required_names].
    repeat split; eauto using omit_empty_not_empty. }
  destruct (_ =? "ENUM"); [cbn -[fold_left]; repeat split; eauto; discriminate|].
  destruct (_ =? "UNION"); cbn -[fold_left]; repeat split; eauto; discriminate.
Qed.

(** ** Further facts: the schema assembler *)

(** X10: [findType] returns the first type of the list that carries the
    name: it is the head of the types of that name, it returns a type
    exactly when that type sits in the list behind types of other names
    only, and it returns nil exactly when no type carries the name. *)
Theorem findType_first (types : list IntrospectionType.t) (name : string) :
  findType types name = head (named name types) /\
  (forall t,
     findType types name = Some t <->
     exists before after,
       types = before ++ t :: after /\
       IntrospectionType.Name t = name /\
       Forall (fun t' => IntrospectionType.Name t' <> name) before) /\
  (findType types name = None <->
     Forall (fun t => IntrospectionType.Name t <> name) types).
Proof.
  split; [|split].
  - induction types as [|x l IH]; [reflexivity|].
    simpl. rewrite named_cons.
    destruct (String.eqb_spec (IntrospectionType.Name x) name);
      case_decide; try contradiction; [reflexivity | exact IH].
  - induction types as [|x l IH]; intros t; simpl.
    + split; [discriminate|].
      intros (before & after & Heq & _). by destruct before.
    + destruct (String.eqb_spec (IntrospectionType.Name x) name) as [Hx|Hx].
      * split.
        -- intros [= <-]. exists [], l. repeat split; [exact Hx | constructor].
        -- intros (before & after & Heq & _ & Hbefore).
           destruct before as [|y before]; simpl in Heq.
           ++ by injection Heq as ->.
           ++ injection Heq as -> _. by inversion Hbefore.
      * rewrite IH. split.
        -- intros (before & after & -> & Ht & Hbefore).
           exists (x :: before), after. repeat split; [exact Ht | by constructor].
        -- intros (before & after & Heq & Ht & Hbefore).
           destruct before as [|y before]; simpl in Heq.
           ++ injection Heq as -> _. contradiction.
           ++ injection Heq as -> ->. exists before, after.
              repeat split; [exact Ht | by inversion Hbefore].
  - induction types as [|x l IH]; simpl.
    + split; [constructor | reflexivity].
    + destruct (String.eqb_spec (IntrospectionType.Name x) name) as [Hx|Hx].
      * split; [discriminate | intros H; by inversion H].
      * rewrite IH. split; [by constructor | intros H; by inversion H].
Qed.

Lemma sublist_List_filter {A} (p : A -> bool) (l : list A) :
  sublist (List.filter p l) l.
Proof.
  induction l as [|x l IH]; simpl; [constructor|].
  destruct (p x); by constructor.
Qed.

Lemma List_filter_idempotent {A} (p : A -> bool) (l : list A) :
  List.filter p (List.filter p l) = List.filter p l.
Proof.
  induction l as [|x l IH]; simpl; [reflexivity|].
  destruct (p x) eqn:Hp; simpl; [rewrite Hp|]; congruence.
Qed.

(** X11: [filterTypes] returns the list unchanged when ignoreInternals
    is off; when it is on it keeps exactly the types whose name does not
    begin with two underscores. Either way the result keeps the order of
    the list, and filtering twice is filtering once. *)
Theorem filterTypes_spec (types : list IntrospectionType.t) (ignoreInternals : bool) :
  filterTypes types false = types /\
  (forall t,
     t ∈ filterTypes types true <->
     t ∈ types /\ ~ exists rest, IntrospectionType.Name t = "__" +:+ rest) /\
  sublist (filterTypes types ignoreInternals) types /\
  filterTypes (filterTypes types ignoreInternals) ignoreInternals =
    filterTypes types ignoreInternals.
Proof.
  split; [reflexivity|]. split; [|split].
  - intros t. rewrite filterTypes_filter, !list_elem_of_In, filter_In. simpl.
    rewrite keepType_internal_name, negb_true_iff, <- not_true_iff_false.
    rewrite internal_name_true. reflexivity.
  - rewrite filterTypes_filter. apply sublist_List_filter.
  - rewrite !filterTypes_filter. apply List_filter_idempotent.
Qed.

Lemma Properties_set_Properties v (s : Node) : Properties (s |> set_Properties v) = v.
Proof. by destruct s. Qed.

Lemma Properties_set_Definitions v (s : Node) :
  Properties (s |> set_Definitions v) = Properties s.
Proof. by destruct s. Qed.

Lemma Properties_assign_definitions types opts (s : Node) :
  Properties (assign_definitions json_Unmarshal types opts s) = Properties s.
Proof.
  unfold assign_definitions.
  destruct types; [apply Properties_set_Definitions | reflexivity].
Qed.

Lemma Properties_assign_root key root types opts (s : Node) (m : gmap string Node) :
  Properties s = Some m ->
  Properties (assign_root json_Unmarshal key root types opts s) =
  Some match resolve_root root (range types) with
       | Some rootType => <[key := processType json_Unmarshal rootType opts]> m
       | None => m
       end.
Proof.
  intros Hm. unfold assign_root, resolve_root.
  destruct root as [rootRef|]; [|exact Hm].
  destruct types as [types|]; [|exact Hm]. simpl.
  destruct (findType types _); [|exact Hm].
  rewrite Properties_set_Properties, Hm. reflexivity.
Qed.

(** X12: the properties of the result hold at most the two keys Query
    and Mutation. Query is bound when a query root is declared and some
    type carries the declared name, and then to the node of the first
    such type, looked up in the whole list, internal types included;
    otherwise the key is absent and no error is raised. Mutation
    likewise. *)
Theorem root_properties
  (introspection : IntrospectionQuery.t) (opts : option Options.t) :
  let o := match opts with Some o => o | None => DefaultOptions end in
  let s := IntrospectionQuery.Schema introspection in
  let types := range (IntrospectionSchema.Types s) in
  exists m,
    Properties (fst (FromIntrospectionQuery json_Unmarshal introspection opts))
      = Some m /\
    m !! "Query" =
      (fun t => processType json_Unmarshal t o)
        <$> resolve_root (IntrospectionSchema.QueryType s) types /\
    m !! "Mutation" =
      (fun t => processType json_Unmarshal t o)
        <$> resolve_root (IntrospectionSchema.MutationType s) types /\
    forall k, k <> "Query" -> k <> "Mutation" -> m !! k = None.
Proof.
  intros o s types. unfold FromIntrospectionQuery. cbn [fst]. fold o s.
  rewrite Properties_assign_definitions.
  erewrite Properties_assign_root;
    [|erewrite Properties_assign_root; [reflexivity | reflexivity]].
  fold types. eexists. split; [reflexivity|].
  destruct (resolve_root (IntrospectionSchema.QueryType s) types),
           (resolve_root (IntrospectionSchema.MutationType s) types); simpl;
    repeat split; intros;
    rewrite ?lookup_insert_eq, ?lookup_insert_ne, ?lookup_insert_eq, ?lookup_empty
      by congruence; reflexivity.
Qed.

(** The engine reads ignoreInternals only in the definitions pass: the
    node of a reference, and so of a type, is the same under two options
    that agree on the other two settings. *)
Lemma processTypeRef_agree (typeRef : IntrospectionTypeRef.t) (o1 o2 : Options.t) :
  Options.NullableArrayItems o1 = Options.NullableArrayItems o2 ->
  Options.IDTypeMapping o1 = Options.IDTypeMapping o2 ->
  @processTypeRef JSONValue typeRef o1 = processTypeRef typeRef o2.
Proof.
  intros Hn Hid.
  induction typeRef as [typeRef IH] using typeRef_chain_ind.
  rewrite 2!processTypeRef_unfold.
  destruct (IntrospectionTypeRef.OfType typeRef) as [ofType|].
  - rewrite (IH ofType eq_refl), Hn, Hid. reflexivity.
  - rewrite Hid. reflexivity.
Qed.

Lemma fold_left_agree {A B} (f g : A -> B -> A) (l : list B) (a : A) :
  (forall a x, f a x = g a x) -> fold_left f l a = fold_left g l a.
Proof.
  intros Hfg. revert a. induction l as [|x l IH]; intros a; simpl; [reflexivity|].
  rewrite Hfg. apply IH.
Qed.

Lemma processType_agree (t : IntrospectionType.t) (o1 o2 : Options.t) :
  Options.NullableArrayItems o1 = Options.NullableArrayItems o2 ->
  Options.IDTypeMapping o1 = Options.IDTypeMapping o2 ->
  processType json_Unmarshal t o1 = processType json_Unmarshal t o2.
Proof.
  intros Hn Hid.
  assert (Href : forall r, @processTypeRef JSONValue r o1 = processTypeRef r o2)
    by (intros r; by apply processTypeRef_agree).
  assert (Harg : forall a, processArg json_Unmarshal a o1 = processArg json_Unmarshal a o2)
    by (intros a; unfold processArg; by rewrite Href).
  assert (Hin : forall i,
    processInputValue json_Unmarshal i o1 = processInputValue json_Unmarshal i o2)
    by (intros i; unfold processInputValue; by rewrite Href).
  assert (Hfield : forall f,
    processField json_Unmarshal f o1 = processField json_Unmarshal f o2).
  { intros f. unfold processField. rewrite Href.
    erewrite fold_left_agree; [reflexivity|].
    intros [props required] arg. by rewrite Harg. }
  unfold processType.
  erewrite fold_left_agree; [erewrite (fold_left_agree _ _ (range (IntrospectionType.InputFields t))); [reflexivity|]|].
  - intros [props required] field. by rewrite Hin.
  - intros [props required] field. by rewrite Hfield.
Qed.

(** X13: turning ignoreInternals on only removes definitions. With the
    other two options fixed, the definitions built with ignoreInternals
    on are a sub-map of those built with it off, and the keys that go
    missing all begin with two underscores. *)
Theorem definitions_ignoreInternals_subset
  (introspection : IntrospectionQuery.t)
  (nullableArrayItems : bool) (idTypeMapping : IDTypeMapping) :
  let on := Options.mk true nullableArrayItems idTypeMapping in
  let off := Options.mk false nullableArrayItems idTypeMapping in
  exists m_on m_off : gmap string Node,
    Definitions (fst (FromIntrospectionQuery json_Unmarshal introspection (Some on)))
      = Some m_on /\
    Definitions (fst (FromIntrospectionQuery json_Unmarshal introspection (Some off)))
      = Some m_off /\
    m_on ⊆ m_off /\
    forall k, is_Some (m_off !! k) -> m_on !! k = None ->
              exists rest, k = "__" +:+ rest.
Proof.
  intros on off.
  destruct (definitions_lookup json_Unmarshal introspection (Some on))
    as (m_on & Hon & Hlook_on).
  destruct (definitions_lookup json_Unmarshal introspection (Some off))
    as (m_off & Hoff & Hlook_off).
  cbn zeta in Hlook_on, Hlook_off. simpl in Hlook_on, Hlook_off.
  assert (Hagree : forall t,
    processType json_Unmarshal t on = processType json_Unmarshal t off)
    by (intros t; by apply processType_agree).
  exists m_on, m_off. split; [exact Hon|]. split; [exact Hoff|]. split.
  - apply map_subseteq_spec. intros k v. rewrite Hlook_on, Hlook_off.
    destruct (isRootType k); simpl; [discriminate|].
    destruct (internal_name k); simpl; [discriminate|].
    destruct (last _); simpl; [|discriminate]. by rewrite Hagree.
  - intros k. rewrite Hlook_on, Hlook_off.
    destruct (isRootType k); simpl; [by intros [? ?]|].
    destruct (internal_name k) eqn:Hint; simpl.
    + intros _ _. by apply internal_name_true.
    + destruct (last _); simpl; [discriminate | by intros [? ?]].
Qed.

(** ** Further facts: the command-line driver *)

(** The input stage, case by case. *)
Lemma loadIntrospection_normal (w : World') :
  loadIntrospection w =
  if negb (viper_GetString w "endpoint" =? "") then
    let notice :=
      Stderr ("Fetching schema from endpoint: " +:+ viper_GetString w "endpoint"
              +:+ newline) in
    match getIntrospectionFromEndpoint w (viper_GetString w "endpoint")
            (viper_GetStringSlice w "headers") with
    | Ok doc => ([notice], Continue (Some doc))
    | Err e => ([notice], Stop (Returns (Some e)))
    end
  else if negb (viper_GetString w "input" =? "") then
    match os_ReadFile w (viper_GetString w "input") with
    | Ok data =>
        match json_Unmarshal_introspection w data with
        | Ok p => ([], Continue p)
        | Err e => ([], Stop (Returns (Some ("error parsing input file: " +:+ e))))
        end
    | Err e => ([], Stop (Returns (Some ("error reading input file: " +:+ e))))
    end
  else
    match getIntrospectionFromStdin w with
    | Ok (Some doc) => ([], Continue (Some doc))
    | Ok None =>
        ([], Stop (Returns (Some
           "no input provided: use --endpoint, --input, or pipe data to stdin")))
    | Err e => ([], Stop (Returns (Some e)))
    end.
Proof.
  unfold loadIntrospection.
  destruct (negb (viper_GetString w "endpoint" =? "")).
  - destruct (getIntrospectionFromEndpoint w _ _); reflexivity.
  - destruct (negb (viper_GetString w "input" =? "")).
    + destruct (os_ReadFile w _) as [data|]; [|reflexivity].
      cbn. destruct (json_Unmarshal_introspection w data); reflexivity.
    + destruct (getIntrospectionFromStdin w) as [[doc|]|]; reflexivity.
Qed.

(** The second stage under a valid id-type, case by case. *)
Lemma convertAndWrite_normal (w : World') (p : option IntrospectionQuery.t) :
  IsValidIDTypeMapping (viper_GetString w "id-type") = true ->
  convertAndWrite json_Unmarshal w p =
  match p with
  | None => ([], Stop Panics)
  | Some doc =>
      match json_MarshalIndent w
              (fst (FromIntrospectionQuery json_Unmarshal doc (Some (driver_options w))))
      with
      | Err e => ([], Stop (Returns (Some ("error marshaling JSON Schema: " +:+ e))))
      | Ok output =>
          if viper_GetString w "output" =? "" then
            (output_effects w output, Stop (Returns None))
          else
            match os_MkdirAll w (filepath_Dir w (viper_GetString w "output")) with
            | Some e =>
                ([MkdirAll (filepath_Dir w (viper_GetString w "output"))],
                 Stop (Returns (Some ("error creating output directory: " +:+ e))))
            | None =>
                match os_WriteFile w (viper_GetString w "output") output with
                | Some e =>
                    (output_effects w output,
                     Stop (Returns (Some ("error writing output file: " +:+ e))))
                | None => (output_effects w output, Stop (Returns None))
                end
            end
      end
  end.
Proof.
  intros Hvalid. unfold convertAndWrite, output_effects. rewrite Hvalid.
  destruct p as [doc|]; [|reflexivity].
  change (FromIntrospectionQuery json_Unmarshal doc _)
    with (fst (FromIntrospectionQuery json_Unmarshal doc (Some (driver_options w))),
          @None string).
  cbn -[FromIntrospectionQuery].
  destruct (json_MarshalIndent w _) as [output|]; [|reflexivity].
  cbn -[FromIntrospectionQuery].
  destruct (viper_GetString w "output" =? ""); [reflexivity|].
  cbn. destruct (os_MkdirAll w _); [reflexivity|].
  cbn. destruct (os_WriteFile w _ _); reflexivity.
Qed.

Lemma convertAndWrite_invalid (w : World') (p : option IntrospectionQuery.t) :
  IsValidIDTypeMapping (viper_GetString w "id-type") = false ->
  convertAndWrite json_Unmarshal w p =
    ([], Stop (Returns (Some
       ("invalid id-type mapping: " +:+ viper_GetString w "id-type")))).
Proof. intros Hinvalid. unfold convertAndWrite. by rewrite Hinvalid. Qed.

(** How the second stage can end. *)
Lemma convertAndWrite_cases (w : World') (p : option IntrospectionQuery.t) :
  exists tr o,
    convertAndWrite json_Unmarshal w p = (tr, Stop o) /\
    (o = Panics <->
       IsValidIDTypeMapping (viper_GetString w "id-type") = true /\ p = None) /\
    (o = Returns None ->
       exists doc output,
         p = Some doc /\
         IsValidIDTypeMapping (viper_GetString w "id-type") = true /\
         json_MarshalIndent w
           (fst (FromIntrospectionQuery json_Unmarshal doc (Some (driver_options w))))
           = Ok output /\
         tr = output_effects w output) /\
    (forall s, Stdout s ∈ tr -> o = Returns None).
Proof.
  destruct (IsValidIDTypeMapping (viper_GetString w "id-type")) eqn:Hvalid.
  - rewrite (convertAndWrite_normal w p Hvalid).
    destruct p as [doc|].
    + destruct (json_MarshalIndent w _) as [output|e] eqn:Hmarshal.
      * unfold output_effects.
        destruct (viper_GetString w "output" =? "") eqn:Hout;
          [|destruct (os_MkdirAll w _); [|destruct (os_WriteFile w _ _)]];
          eexists _, _; (split; [reflexivity|]);
          (split; [split; [discriminate | intros [_ [=]]]|]);
          (split; [intros; try discriminate; eexists _, _;
                   rewrite ?Hout; eauto |]);
          intros line Hin;
          repeat (apply elem_of_cons in Hin as [Hin|Hin]; try discriminate);
          try reflexivity; by apply elem_of_nil in Hin.
      * eexists _, _. split; [reflexivity|].
        split; [split; [discriminate | intros [_ [=]]]|].
        split; [discriminate|]. intros s Hs. by apply elem_of_nil in Hs.
    + eexists _, _. split; [reflexivity|].
      split; [tauto|]. split; [discriminate|].
      intros s Hs. by apply elem_of_nil in Hs.
  - rewrite (convertAndWrite_invalid w p Hvalid).
    eexists _, _. split; [reflexivity|].
    split; [split; [discriminate | intros [[=] _]]|].
    split; [discriminate|]. intros s Hs. by apply elem_of_nil in Hs.
Qed.

(** A run is the input stage followed, if that stage yields a pointer,
    by the second stage. *)
Lemma runConversion_split (w : World') :
  exists tr0,
    Forall (fun ev => is_output ev = false) tr0 /\
    ((exists e,
        loadIntrospection w = (tr0, Stop (Returns (Some e))) /\
        runConversion json_Unmarshal w = (tr0, Returns (Some e))) \/
     (exists p tr o,
        loadIntrospection w = (tr0, Continue p) /\
        convertAndWrite json_Unmarshal w p = (tr, Stop o) /\
        runConversion json_Unmarshal w = (tr0 ++ tr, o))).
Proof.
  destruct (loadIntrospection_cases w) as (tr0 & Htr0 & [[p Hload] | [e Hload]]);
    exists tr0; (split; [exact Htr0|]).
  - right. destruct (convertAndWrite_cases w p) as (tr & o & Hconv & _).
    exists p, tr, o. split; [exact Hload|]. split; [exact Hconv|].
    unfold runConversion. rewrite Hload. cbn. rewrite Hconv. reflexivity.
  - left. exists e. split; [exact Hload|].
    unfold runConversion. rewrite Hload. reflexivity.
Qed.

Lemma loadIntrospection_nil (w : World') :
  (exists tr0, loadIntrospection w = (tr0, Continue None)) <->
  viper_GetString w "endpoint" = "" /\
  viper_GetString w "input" <> "" /\
  exists data,
    os_ReadFile w (viper_GetString w "input") = Ok data /\
    json_Unmarshal_introspection w data = Ok None.
Proof.
  rewrite loadIntrospection_normal.
  destruct (String.eqb_spec (viper_GetString w "endpoint") "") as [Hend|Hend]; simpl.
  - destruct (String.eqb_spec (viper_GetString w "input") "") as [Hin|Hin]; simpl.
    + split.
      * intros [tr0 H]. destruct (getIntrospectionFromStdin w) as [[?|]|]; discriminate.
      * tauto.
    + destruct (os_ReadFile w _) as [data|e].
      * destruct (json_Unmarshal_introspection w data) as [[doc|]|e] eqn:Hparse.
        -- split; [intros [? [=]] | intros (_ & _ & d & [= <-] & Hd); congruence].
        -- split; [eauto 10 | eauto].
        -- split; [intros [? [=]] | intros (_ & _ & d & [= <-] & Hd); congruence].
      * split; [intros [? [=]] | intros (_ & _ & d & [=] & _)].
  - split; [|tauto].
    intros [tr0 H]. destruct (getIntrospectionFromEndpoint w _ _); discriminate.
Qed.

(** X14: the driver panics in exactly one situation: no endpoint is
    configured, an input file is, the file is read and parsed without
    error but leaves the introspection pointer nil (the document is the
    JSON literal null), and the id-type is valid; the nil pointer is then
    dereferenced for the conversion. *)
Theorem runConversion_panics (w : World') :
  snd (runConversion json_Unmarshal w) = Panics <->
  IsValidIDTypeMapping (viper_GetString w "id-type") = true /\
  viper_GetString w "endpoint" = "" /\
  viper_GetString w "input" <> "" /\
  exists data,
    os_ReadFile w (viper_GetString w "input") = Ok data /\
    json_Unmarshal_introspection w data = Ok None.
Proof.
  rewrite <- loadIntrospection_nil.
  destruct (runConversion_split w)
    as (tr0 & _ & [(e & Hload & Hrun) | (p & tr & o & Hload & Hconv & Hrun)]);
    rewrite Hrun; cbn [snd].
  - split; [discriminate|]. intros (_ & tr0' & Hnil). congruence.
  - destruct (convertAndWrite_cases w p) as (tr' & o' & Hconv' & Hpanic & _).
    assert (o' = o) by congruence. subst o'.
    rewrite Hpanic. split.
    + intros [Hvalid ->]. eauto.
    + intros (Hvalid & tr0' & Hnil). split; [exact Hvalid|]. congruence.
Qed.

(** X15: when the driver returns nil, the input stage has yielded a
    document, the id-type is valid, and what the driver wrote after the
    input stage is the marshalled schema of that document under the
    options read from the flags, once: on standard output when no output
    file is configured, else through MkdirAll and WriteFile. *)
Theorem runConversion_success (w : World') :
  snd (runConversion json_Unmarshal w) = Returns None ->
  exists tr0 doc output,
    loadIntrospection w = (tr0, Continue (Some doc)) /\
    IsValidIDTypeMapping (viper_GetString w "id-type") = true /\
    json_MarshalIndent w
      (fst (FromIntrospectionQuery json_Unmarshal doc (Some (driver_options w))))
      = Ok output /\
    fst (runConversion json_Unmarshal w) = tr0 ++ output_effects w output.
Proof.
  destruct (runConversion_split w)
    as (tr0 & _ & [(e & Hload & Hrun) | (p & tr & o & Hload & Hconv & Hrun)]);
    rewrite Hrun; cbn [snd fst]; [discriminate|].
  intros ->.
  destruct (convertAndWrite_cases w p) as (tr' & o' & Hconv' & _ & Hok & _).
  assert (Heq : (tr', o') = (tr, Returns None)) by congruence.
  injection Heq as -> ->.
  destruct (Hok eq_refl) as (doc & output & -> & Hvalid & Hmarshal & ->).
  eauto 10.
Qed.

(** X16: nothing reaches standard output unless the run succeeds: if
    the driver wrote to standard output it returns nil. *)
Theorem runConversion_stdout (w : World') (s : string) :
  Stdout s ∈ fst (runConversion json_Unmarshal w) ->
  snd (runConversion json_Unmarshal w) = Returns None.
Proof.
  destruct (runConversion_split w)
    as (tr0 & Htr0 & [(e & Hload & Hrun) | (p & tr & o & Hload & Hconv & Hrun)]);
    rewrite Hrun; cbn [snd fst]; intros Hin.
  - rewrite Forall_forall in Htr0. apply Htr0 in Hin. discriminate.
  - apply elem_of_app in Hin as [Hin|Hin].
    + rewrite Forall_forall in Htr0. apply Htr0 in Hin. discriminate.
    + destruct (convertAndWrite_cases w p) as (tr' & o' & Hconv' & _ & _ & Hout).
      assert (Heq : (tr', o') = (tr, o)) by congruence.
      injection Heq as -> ->. exact (Hout s Hin).
Qed.

(** X17: with no endpoint and no input file configured and nothing piped
    to standard input, the driver returns the no-input error and writes
    nothing, whatever the other flags, the id-type included. *)
Theorem runConversion_no_input (w : World') :
  viper_GetString w "endpoint" = "" ->
  viper_GetString w "input" = "" ->
  getIntrospectionFromStdin w = Ok None ->
  runConversion json_Unmarshal w =
    ([], Returns (Some
       "no input provided: use --endpoint, --input, or pipe data to stdin")).
Proof.
  intros Hend Hin Hstdin. unfold runConversion.
  rewrite loadIntrospection_normal, Hend, Hin, Hstdin. reflexivity.
Qed.

(** X18: a configured endpoint takes precedence over the other sources:
    two worlds that differ only in what the input file and standard input
    hold run alike when the endpoint is set. *)
Theorem runConversion_endpoint_first (w w' : World') :
  viper_GetString w "endpoint" <> "" ->
  viper_GetString w' = viper_GetString w ->
  viper_GetStringSlice w' = viper_GetStringSlice w ->
  viper_GetBool w' = viper_GetBool w ->
  getIntrospectionFromEndpoint w' = getIntrospectionFromEndpoint w ->
  json_MarshalIndent w' = json_MarshalIndent w ->
  filepath_Dir w' = filepath_Dir w ->
  os_MkdirAll w' = os_MkdirAll w ->
  os_WriteFile w' = os_WriteFile w ->
  runConversion json_Unmarshal w' = runConversion json_Unmarshal w.
Proof.
  intros Hend Hs Hsl Hb Hfetch Hm Hd Hmk Hwr.
  unfold runConversion. rewrite 2!loadIntrospection_normal.
  unfold convertAndWrite. rewrite Hs, Hsl, Hb, Hfetch, Hm, Hd, Hmk, Hwr.
  apply String.eqb_neq in Hend. rewrite Hend. reflexivity.
Qed.

(** ** Further facts: from the document to a field's nodes *)

Lemma property_Query
  (introspection : IntrospectionQuery.t) (opts : option Options.t) :
  let o := match opts with Some o => o | None => DefaultOptions end in
  let s := IntrospectionQuery.Schema introspection in
  property "Query" (fst (FromIntrospectionQuery json_Unmarshal introspection opts)) =
  (fun t => processType json_Unmarshal t o)
    <$> resolve_root (IntrospectionSchema.QueryType s)
          (range (IntrospectionSchema.Types s)).
Proof.
  intros o s. unfold property, FromIntrospectionQuery. cbn [fst]. fold o s.
  rewrite Properties_assign_definitions.
  erewrite Properties_assign_root;
    [|erewrite Properties_assign_root; [reflexivity | reflexivity]].
  cbn [mbind option_bind].
  destruct (resolve_root (IntrospectionSchema.QueryType s) _),
           (resolve_root (IntrospectionSchema.MutationType s) _); simpl;
    rewrite ?lookup_insert_ne, ?lookup_insert_eq, ?lookup_empty by discriminate;
    reflexivity.
Qed.

Lemma property_of_object (t : IntrospectionType.t) (opts : Options.t) (k : string) :
  IntrospectionType.Kind t = "OBJECT" \/ IntrospectionType.Kind t = "INTERFACE" ->
  property k (processType json_Unmarshal t opts) =
  (fun field => processField json_Unmarshal field opts)
    <$> last (with_name IntrospectionField.Name k (range (IntrospectionType.Fields t))).
Proof.
  intros Hkind. unfold property, processType.
  assert (Hb : (IntrospectionType.Kind t =? "OBJECT")
               || (IntrospectionType.Kind t =? "INTERFACE") = true).
  { destruct Hkind as [-> | ->]; reflexivity. }
  cbn zeta. rewrite Hb. cbn -[fold_left range].
  destruct (member_loop IntrospectionField.Name
              (fun field => processField json_Unmarshal field opts)
              IntrospectionField.Type_ (range (IntrospectionType.Fields t)) ∅ [])
    as (m & Hm & Hlook).
  rewrite Hm. cbn -[required_names].
  rewrite assign_required_omit_empty by reflexivity. cbn -[required_names].
  rewrite Hlook, lookup_empty. destruct (last _); reflexivity.
Qed.

Lemma property_return (field : IntrospectionField.t) (opts : Options.t) :
  property "return" (processField json_Unmarshal field opts) =
  Some (processTypeRef (IntrospectionField.Type_ field) opts).
Proof.
  unfold property, processField. cbn -[fold_left range].
  destruct (member_loop IntrospectionArg.Name
              (fun arg => processArg json_Unmarshal arg opts)
              IntrospectionArg.Type_ (range (IntrospectionField.Args field)) ∅ [])
    as (m & Hm & _).
  rewrite Hm. cbn -[required_names].
  rewrite assign_required_omit_empty by reflexivity. cbn -[required_names].
  rewrite lookup_insert_ne by discriminate. apply lookup_insert_eq.
Qed.

(** X19: from the document to the node of a field's return type. When
    the declared query root resolves to a type of kind OBJECT or
    INTERFACE, then for every field name [f] of that type,
    properties.Query.properties.f.properties.return of the result is the
    node of the type reference of the last field named [f], and
    properties.Query.properties.f.description is that field's
    description. *)
Theorem query_field_return
  (introspection : IntrospectionQuery.t) (opts : option Options.t)
  (rootType : IntrospectionType.t) (f : string) (field : IntrospectionField.t) :
  let o := match opts with Some o => o | None => DefaultOptions end in
  let s := IntrospectionQuery.Schema introspection in
  let schema := fst (FromIntrospectionQuery json_Unmarshal introspection opts) in
  resolve_root (IntrospectionSchema.QueryType s) (range (IntrospectionSchema.Types s))
    = Some rootType ->
  IntrospectionType.Kind rootType = "OBJECT" \/
    IntrospectionType.Kind rootType = "INTERFACE" ->
  last (with_name IntrospectionField.Name f (range (IntrospectionType.Fields rootType)))
    = Some field ->
  node_at ["Query"; f; "return"] schema
    = Some (processTypeRef (IntrospectionField.Type_ field) o) /\
  Description <$> node_at ["Query"; f] schema
    = Some (IntrospectionField.Description field).
Proof.
  intros o s schema Hroot Hkind Hfield.
  unfold node_at. cbn [fold_left mbind option_bind]. subst schema.
  rewrite property_Query. fold o s. rewrite Hroot. cbn [fmap option_fmap option_map
    mbind option_bind].
  rewrite (property_of_object rootType o f Hkind), Hfield.
  cbn [fmap option_fmap option_map mbind option_bind].
  split; [apply property_return|].
  unfold processField. destruct (fold_left _ _ _). reflexivity.
Qed.

End MoreFacts.

(** ** The further facts at concrete inputs *)

(** X3 at LIST around NON_NULL around SCALAR Int, with default options. *)
Lemma processTypeRef_strip_non_null_witness :
  Options.NullableArrayItems DefaultOptions = false /\
  strip_non_null (non_null (list_of (non_null (scalar_ref "Int"))))
    = list_of (scalar_ref "Int") /\
  @processTypeRef bool (strip_non_null (non_null (list_of (non_null (scalar_ref "Int")))))
    DefaultOptions
  = processTypeRef (non_null (list_of (non_null (scalar_ref "Int")))) DefaultOptions.
Proof.
  split; [reflexivity|]. split; [reflexivity|].
  apply processTypeRef_strip_non_null. reflexivity.
Defined.

(** X7 at the object type RootQuery, whose one field ping is NON_NULL. *)
Lemma processType_OBJECT_witness :
  (IntrospectionType.Kind root_query_type = "OBJECT" \/
   IntrospectionType.Kind root_query_type = "INTERFACE") /\
  Required (processType literal_Unmarshal root_query_type DefaultOptions)
    = Some ["ping"].
Proof.
  split; [left; reflexivity|].
  destruct (processType_OBJECT literal_Unmarshal root_query_type DefaultOptions
              (or_introl eq_refl)) as (props & Heq & _).
  rewrite Heq. reflexivity.
Defined.

(** X8 at the input object ReviewInput: stars is required and its
    default, which does not parse, is dropped; public keeps its parsed
    default and its own description. *)
Lemma processType_INPUT_OBJECT_witness :
  IntrospectionType.Kind review_input = "INPUT_OBJECT" /\
  Required (processType literal_Unmarshal review_input DefaultOptions)
    = Some ["stars"] /\
  property "public" (processType literal_Unmarshal review_input DefaultOptions)
    = Some (set_Default (Some true)
              (set_Description "Shown to everyone."
                 (set_Title "Boolean" (set_Type (type_string "boolean") empty_node)))) /\
  Default <$> property "stars" (processType literal_Unmarshal review_input DefaultOptions)
    = Some None.
Proof.
  split; [reflexivity|].
  destruct (processType_INPUT_OBJECT literal_Unmarshal review_input DefaultOptions
              eq_refl) as (props & Heq & Hlook).
  rewrite Heq. split; [reflexivity|].
  unfold property. simpl. rewrite !Hlook. split; reflexivity.
Defined.

(** X14 on the run whose input file holds the JSON literal null. *)
Lemma runConversion_panics_witness :
  snd (runConversion literal_Unmarshal null_file_world) = Panics.
Proof.
  apply runConversion_panics.
  split; [reflexivity|]. split; [reflexivity|]. split; [discriminate|].
  exists "file contents". split; reflexivity.
Defined.

(** X15 on the run with [ping_document] piped in and no output file. *)
Lemma runConversion_success_witness :
  snd (runConversion literal_Unmarshal piped_world) = Returns None /\
  exists tr0 doc output,
    loadIntrospection piped_world = (tr0, Continue (Some doc)) /\
    IsValidIDTypeMapping (viper_GetString piped_world "id-type") = true /\
    json_MarshalIndent piped_world
      (fst (FromIntrospectionQuery literal_Unmarshal doc
              (Some (driver_options piped_world))))
      = Ok output /\
    fst (runConversion literal_Unmarshal piped_world)
      = tr0 ++ output_effects piped_world output.
Proof.
  split; [reflexivity|].
  exact (runConversion_success literal_Unmarshal piped_world eq_refl).
Defined.

(** X16 on the same run: the schema is on standard output, and the run
    returned nil. *)
Lemma runConversion_stdout_witness :
  Stdout ("{...}" +:+ newline) ∈ fst (runConversion literal_Unmarshal piped_world) /\
  snd (runConversion literal_Unmarshal piped_world) = Returns None.
Proof.
  assert (Hin : Stdout ("{...}" +:+ newline)
                ∈ fst (runConversion literal_Unmarshal piped_world))
    by (apply list_elem_of_here).
  split; [exact Hin|].
  exact (runConversion_stdout literal_Unmarshal piped_world _ Hin).
Defined.

(** X17 on a terminal, with an id-type that is not valid. *)
Lemma runConversion_no_input_witness :
  viper_GetString terminal_world "endpoint" = "" /\
  viper_GetString terminal_world "input" = "" /\
  getIntrospectionFromStdin terminal_world = Ok None /\
  runConversion literal_Unmarshal terminal_world =
    ([], Returns (Some
       "no input provided: use --endpoint, --input, or pipe data to stdin")).
Proof.
  split; [reflexivity|]. split; [reflexivity|]. split; [reflexivity|].
  apply runConversion_no_input; reflexivity.
Defined.

(** X18 on two runs against the same endpoint, one with a file and a
    pipe at hand. *)
Lemma runConversion_endpoint_first_witness :
  viper_GetString endpoint_world "endpoint" <> "" /\
  runConversion literal_Unmarshal endpoint_world_with_file
    = runConversion literal_Unmarshal endpoint_world.
Proof.
  split; [discriminate|].
  apply runConversion_endpoint_first; [discriminate | reflexivity ..].
Defined.

(** X19 on the ping document: the return node of ping is the node of
    NON_NULL Boolean. *)
Lemma query_field_return_witness :
  node_at ["Query"; "ping"; "return"]
    (fst (FromIntrospectionQuery literal_Unmarshal ping_document None))
    = Some (processTypeRef (non_null (scalar_ref "Boolean")) DefaultOptions) /\
  Description <$> node_at ["Query"; "ping"]
    (fst (FromIntrospectionQuery literal_Unmarshal ping_document None))
    = Some "".
Proof.
  exact (query_field_return literal_Unmarshal ping_document None
           (IntrospectionType.mk "OBJECT" "Query" ""
              (Some [IntrospectionField.mk "ping" "" None
                       (non_null (scalar_ref "Boolean"))])
              None None None None)
           "ping"
           (IntrospectionField.mk "ping" "" None (non_null (scalar_ref "Boolean")))
           eq_refl (or_introl eq_refl) eq_refl).
Defined.
